(** * Groq chatbot with memory: a model of [app.py]

    [app.py] is a Streamlit script.  Streamlit executes the whole script from
    top to bottom on every user interaction (a "rerun"); the only data that
    survives from one rerun to the next is [st.session_state].  The script
    talks to two collaborators: the LangChain memory classes, whose behaviour
    is reproduced below from the library, and the hosted Groq model, which is
    kept abstract (a transition function on an arbitrary world state).

    A rerun is modelled as a computation in a small monad that threads the
    session state and the world, collects the effects that depend on the
    conversation (messages and buttons drawn, calls on the model clients) in an
    event list, and can end early the way the script can: [st.stop()],
    [st.rerun()] or an uncaught exception.  The page furniture that every
    rerun draws alike (title, sidebar widgets, captions, style sheet) is left
    out; the values of the widgets are the inputs of a rerun, the system
    prompt being the content of its text area whatever preset filled it.
    Strings are the UTF-8 bytes of Python's strings; where the script walks
    a string character by character, the model walks its code points. *)

From Stdlib Require Import String Ascii List ZArith QArith Bool Lia.
From Stdlib Require Import Decimal DecimalString DecimalZ.
Import ListNotations.

Local Open Scope string_scope.
Local Open Scope list_scope.
Local Open Scope Z_scope.

(** ** Python helpers *)

(** Truthiness of a [str]: only the empty string is falsy. *)
Definition truthy (s : string) : bool := negb (s =? "")%string.

(** [str(n)] for an [int]. *)
Definition str_int (n : Z) : string := NilEmpty.string_of_int (Z.to_int n).

(** [str(x)] for an [Optional[int]], as an f-string renders it. *)
Definition str_opt (x : option Z) : string :=
  match x with
  | None => "None"
  | Some n => str_int n
  end.

(** [x or d] for an [Optional[int]]: [None] and [0] are falsy. *)
Definition or_default (x : option Z) (d : Z) : Z :=
  match x with
  | None => d
  | Some n => if n =? 0 then d else n
  end.

(** [l[-n:]] for [n > 0]: the last [n] elements, the whole list when it is
    shorter. *)
Definition lastn {A : Type} (n : nat) (l : list A) : list A :=
  skipn (length l - n) l.

(** [c.upper()] on the ASCII range; the message types it is applied to are
    ASCII words. *)
Definition upper_ascii (c : ascii) : ascii :=
  let n := nat_of_ascii c in
  if (97 <=? n)%nat && (n <=? 122)%nat then ascii_of_nat (n - 32) else c.

Fixpoint upper (s : string) : string :=
  match s with
  | EmptyString => EmptyString
  | String c s' => String (upper_ascii c) (upper s')
  end.

(** A byte [10xxxxxx], which continues the code point begun before it. *)
Definition is_continuation (c : ascii) : bool :=
  let n := nat_of_ascii c in (128 <=? n)%nat && (n <? 192)%nat.

Definition starts_with_continuation (s : string) : bool :=
  match s with
  | EmptyString => false
  | String c _ => is_continuation c
  end.

(** [list(s)]: the code points of [s], each with its bytes. *)
Fixpoint code_points (s : string) : list string :=
  match s with
  | EmptyString => []
  | String c s' =>
      if starts_with_continuation s' then
        match code_points s' with
        | chunk :: chunks => String c chunk :: chunks
        | [] => [String c EmptyString]
        end
      else String c EmptyString :: code_points s'
  end.

Definition newline : ascii := "010"%char.

(** The separator ["\n\n"]. *)
Definition blank_line : string := String newline (String newline EmptyString).

(** ** Data model *)

(** LangChain messages; [type] and [content] are the attributes the script
    reads. *)
Inductive BaseMessage : Type :=
| HumanMessage (text : string)
| AIMessage (text : string)
| SystemMessage (text : string).

Definition type (m : BaseMessage) : string :=
  match m with
  | HumanMessage _ => "human"
  | AIMessage _ => "ai"
  | SystemMessage _ => "system"
  end.

Definition content (m : BaseMessage) : string :=
  match m with
  | HumanMessage t | AIMessage t | SystemMessage t => t
  end.

(** A [ChatGroq] client: the arguments the script constructs it with (what
    the library makes of them inside a call, its retries and the way it
    sends a temperature of 0, is part of the service). *)
Record ChatGroq : Type := {
  llm_model_name : string;
  llm_temperature : Q;
  llm_max_tokens : option Z;
  llm_api_key : string
}.

(** The three memory classes.  Each owns a [chat_memory] message list; the
    summary memory also carries its summarizer client and the running
    summary [buffer], the window memory its size [k]. *)
Inductive MemoryClass : Type :=
| ConversationBufferMemory
| ConversationSummaryMemory (llm : ChatGroq) (buffer : string)
| ConversationBufferWindowMemory (k : Z).

Record Memory : Type := {
  cls : MemoryClass;
  chat_memory : list BaseMessage
}.

(** [st.session_state]: the script uses the two keys [memory] and
    [_mem_config]; [None] is an absent key. *)
Record SessionState : Type := {
  memory : option Memory;
  _mem_config : option string
}.

Definition empty_session : SessionState :=
  {| memory := None; _mem_config := None |}.

(** The widget values of one rerun.  [window_slider] is read only when the
    window strategy is selected; [clear_chat] is the button; [user_input] is
    [st.chat_input], [None] when nothing was submitted. *)
Record Inputs : Type := {
  GROQ_API_KEY : string;
  model_name : string;
  temperature : Q;
  max_tokens : Z;
  system_prompt : string;
  memory_type : string;
  window_slider : Z;
  clear_chat : bool;
  user_input : option string
}.

(** Exceptions the script can meet. *)
Inductive Exception : Type :=
| APIError (msg : string)
| ValueError (msg : string)
| AttributeError (name : string).

(** The two kinds of call made on a [ChatGroq] client: the turn's completion
    on the formatted prompt, and the summary update of the summary memory
    (existing summary, new lines). *)
Inductive Request : Type :=
| chat_completion (llm : ChatGroq) (messages : list BaseMessage)
| summarize (llm : ChatGroq) (summary : string) (new_lines : list BaseMessage).

Inductive Response : Type :=
| Completion (text : string)
| Failure (e : Exception).

(** What a rerun does that can be observed from outside.  [llm_invoke] is
    one call on a client with what the call returned: the script constructs
    its clients with the library's retry setting, so how often the client
    sends the request inside a call is not the script's doing and is not
    recorded. *)
Inductive Event : Type :=
| st_success (body : string)
| st_warning (body : string)
| st_chat_message (name : string) (body : string)
| st_chat_placeholder (name : string)
| placeholder_markdown (body : string)
| time_sleep
| st_download_button (data : string)
| st_exception (e : Exception)
| llm_invoke (req : Request) (resp : Response).

(** ** Memory classes *)

(** [memory.clear()]: empties the message list; the summary memory also
    resets its summary. *)
Definition clear (m : Memory) : Memory :=
  match cls m with
  | ConversationSummaryMemory llm _ =>
      {| cls := ConversationSummaryMemory llm ""; chat_memory := [] |}
  | c => {| cls := c; chat_memory := [] |}
  end.

(** [memory.load_memory_variables({})["history"]] with
    [return_messages=True]. *)
Definition load_memory_variables (m : Memory) : list BaseMessage :=
  match cls m with
  | ConversationBufferMemory => chat_memory m
  | ConversationSummaryMemory _ buffer => [SystemMessage buffer]
  | ConversationBufferWindowMemory k =>
      if 0 <? k then lastn (Z.to_nat (k * 2)) (chat_memory m) else []
  end.

(** The configuration key of line 119. *)
Definition mem_key (memory_type : string) (window_k : option Z) : string :=
  ("memory::" ++ memory_type ++ "::" ++ str_opt window_k)%string.

(** The memory object of lines 122-131. *)
Definition new_memory (i : Inputs) (window_k : option Z) : Memory :=
  if (memory_type i =? "Buffer (all)")%string then
    {| cls := ConversationBufferMemory; chat_memory := [] |}
  else if (memory_type i =? "Summary (long chats)")%string then
    let summarizer_llm :=
      {| llm_model_name := model_name i; llm_temperature := 0%Q;
         llm_max_tokens := None; llm_api_key := GROQ_API_KEY i |} in
    {| cls := ConversationSummaryMemory summarizer_llm ""; chat_memory := [] |}
  else if (memory_type i =? "Window (last N)")%string then
    {| cls := ConversationBufferWindowMemory (or_default window_k 6);
       chat_memory := [] |}
  else
    {| cls := ConversationBufferMemory; chat_memory := [] |}.

(** ** History export (lines 189-193) *)

Definition history_line (m : BaseMessage) : string :=
  (upper (type m) ++ ": " ++ content m)%string.

Definition history_lines (messages : list BaseMessage) : list string :=
  map history_line messages.

Definition history_text (messages : list BaseMessage) : string :=
  String.concat blank_line (history_lines messages).

(** ** Reading a transcript back *)

(** [s.split("\n\n")]: the pieces between successive leftmost occurrences of
    the separator; [cur] is the piece being read. *)
Fixpoint split_blank_from (cur s : string) : list string :=
  match s with
  | EmptyString => [cur]
  | String c s' =>
      match s' with
      | String c' s'' =>
          if (c =? newline)%char && (c' =? newline)%char
          then cur :: split_blank_from EmptyString s''
          else split_blank_from (cur ++ String c EmptyString) s'
      | EmptyString => [(cur ++ String c EmptyString)%string]
      end
  end.

Definition split_blank (s : string) : list string :=
  split_blank_from EmptyString s.

(** Two newlines in a row somewhere in [s]. *)
Fixpoint has_blank_line (s : string) : bool :=
  match s with
  | EmptyString => false
  | String c s' =>
      match s' with
      | String c' _ =>
          ((c =? newline)%char && (c' =? newline)%char) || has_blank_line s'
      | EmptyString => false
      end
  end.

Fixpoint ends_with_newline (s : string) : bool :=
  match s with
  | EmptyString => false
  | String c s' =>
      match s' with
      | EmptyString => (c =? newline)%char
      | String _ _ => ends_with_newline s'
      end
  end.

(** A content the transcript can carry without confusing the separators. *)
Definition splits_cleanly (s : string) : bool :=
  negb (has_blank_line s) && negb (ends_with_newline s).

(** No colon in [s]. *)
Fixpoint no_colon (s : string) : bool :=
  match s with
  | EmptyString => true
  | String c s' => negb (c =? ":")%char && no_colon s'
  end.

(** ** Reading an event list *)

(** A call on a [ChatGroq] client. *)
Definition is_model_request (e : Event) : bool :=
  match e with
  | llm_invoke _ _ => true
  | _ => false
  end.

Definition is_download_button (e : Event) : bool :=
  match e with
  | st_download_button _ => true
  | _ => false
  end.

(** The turn's completion call came back with a text. *)
Definition is_answer (e : Event) : bool :=
  match e with
  | llm_invoke (chat_completion _ _) (Completion _) => true
  | _ => false
  end.

(** The chat bubbles of lines 161-166. *)
Definition bubble (msg : BaseMessage) : Event :=
  if (type msg =? "human")%string
  then st_chat_message "user" (content msg)
  else st_chat_message "assistant" (content msg).

(** The frames of the typing animation that follow the text [accum], one
    per code point of [rest]. *)
Fixpoint reveal (accum : string) (rest : list string) : list Event :=
  match rest with
  | [] => []
  | ch :: rest' =>
      let accum' := (accum ++ ch)%string in
      placeholder_markdown accum' :: time_sleep :: reveal accum' rest'
  end.

(** The prompt of a completion call. *)
Definition prompt_of (e : Event) : option (list BaseMessage) :=
  match e with
  | llm_invoke (chat_completion _ messages) _ => Some messages
  | _ => None
  end.

(** The prompts of the completion calls among [evs], oldest first. *)
Fixpoint prompts (evs : list Event) : list (list BaseMessage) :=
  match evs with
  | [] => []
  | e :: evs' =>
      match prompt_of e with
      | Some p => p :: prompts evs'
      | None => prompts evs'
      end
  end.

(** ** Reading a message list *)

(** A list made of exchanges: a user's message followed by the assistant's,
    any number of times. *)
Fixpoint exchanges (l : list BaseMessage) : bool :=
  match l with
  | [] => true
  | HumanMessage _ :: AIMessage _ :: l' => exchanges l'
  | _ => false
  end.

Definition is_summary (c : MemoryClass) : bool :=
  match c with
  | ConversationSummaryMemory _ _ => true
  | _ => false
  end.

(** ** Sidebar data (lines 46-104) *)

(** The options of the three select boxes. *)
Definition model_options : list string :=
  ["qwen/qwen3-32b"; "llama-3.3-70b-versatile";
   "deepseek-r1-distill-llama-70b"; "gemma2-9b-it"].

Definition mode_options : list string :=
  ["🎓 Teaching Assistant"; "👨‍💻 Coding Helper"; "🌍 Translator";
   "🧠 General Assistant"].

Definition memory_options : list string :=
  ["Buffer (all)"; "Summary (long chats)"; "Window (last N)"].

(** The dictionary of lines 68-81, in source order. *)
Definition preset_prompts : list (string * string) :=
  [("🎓 Teaching Assistant",
    "You are a helpful, concise teaching assistant. Use short, clear explanations, ideally within 3 lines.");
   ("👨‍💻 Coding Helper",
    "You are a precise coding assistant. Respond with minimal prose, correct code, and brief tips.");
   ("🌍 Translator",
    "You are a professional translator. Preserve meaning and tone. If user doesn't specify, translate to Roman Urdu and English side-by-side.");
   ("🧠 General Assistant",
    "You are a friendly, efficient assistant. Be brief, accurate, and helpful.")].

(** [d[key]]: [None] stands for [KeyError]. *)
Fixpoint getitem (d : list (string * string)) (key : string) : option string :=
  match d with
  | [] => None
  | (k, v) :: d' => if (k =? key)%string then Some v else getitem d' key
  end.

(** [d.get(key, default)]. *)
Definition get (d : list (string * string)) (key default : string) : string :=
  match getitem d key with
  | Some v => v
  | None => default
  end.

(** Line 83; the default argument is a subscript and is evaluated first. *)
Definition default_system_prompt (mode : string) : option string :=
  match getitem preset_prompts "🧠 General Assistant" with
  | Some general => Some (get preset_prompts mode general)
  | None => None
  end.

(** The values the widgets of the sidebar can take: the select boxes give
    one of their options, the sliders a value within their bounds. *)
Definition widget_values (i : Inputs) : Prop :=
  In (model_name i) model_options
  /\ In (memory_type i) memory_options
  /\ 2 <= window_slider i <= 20
  /\ 50 <= max_tokens i <= 3000
  /\ (0 <= temperature i <= 1)%Q.

(** ** Reading an event list, continued *)

(** The texts shown by the typing placeholder, oldest first. *)
Fixpoint frames (evs : list Event) : list string :=
  match evs with
  | [] => []
  | placeholder_markdown body :: evs' => body :: frames evs'
  | _ :: evs' => frames evs'
  end.

(** The files offered by the download buttons drawn, oldest first. *)
Fixpoint downloads (evs : list Event) : list string :=
  match evs with
  | [] => []
  | st_download_button data :: evs' => data :: downloads evs'
  | _ :: evs' => downloads evs'
  end.

(** The calls made on [ChatGroq] clients, oldest first. *)
Definition requests (evs : list Event) : list Event :=
  filter is_model_request evs.

(** What [f] reads off the events, oldest first. *)
Fixpoint collect {A : Type} (f : Event -> option A) (evs : list Event)
  : list A :=
  match evs with
  | [] => []
  | e :: evs' =>
      match f e with
      | Some a => a :: collect f evs'
      | None => collect f evs'
      end
  end.

(** The client a completion call was made on. *)
Definition completion_client (e : Event) : option ChatGroq :=
  match e with
  | llm_invoke (chat_completion llm _) _ => Some llm
  | _ => None
  end.

(** A summary update: the client, the summary it started from, the new
    lines, and the answer. *)
Definition summary_update (e : Event)
  : option (ChatGroq * string * list BaseMessage * Response) :=
  match e with
  | llm_invoke (summarize llm summary new_lines) resp =>
      Some (llm, summary, new_lines, resp)
  | _ => None
  end.

(** ** Sample collaborators, widget values and sessions *)

(** A system prompt without template variables renders as itself. *)
Definition literal_template (p : string)
  : option (list BaseMessage -> string -> string) :=
  Some (fun _ _ => p).

Definition client_of (req : Request) : ChatGroq :=
  match req with
  | chat_completion llm _ => llm
  | summarize llm _ _ => llm
  end.

(** A service that accepts one key and rejects every other. *)
Definition keyed_service (valid : string) (w : unit) (req : Request)
  : Response * unit :=
  if (llm_api_key (client_of req) =? valid)%string
  then (Completion "Hi there", w)
  else (Failure (APIError "401 invalid api key"), w).

(** A service that answers completions and fails every summary update. *)
Definition summary_outage (w : unit) (req : Request) : Response * unit :=
  match req with
  | chat_completion _ _ => (Completion "Hi there", w)
  | summarize _ _ _ => (Failure (APIError "429 rate limit"), w)
  end.


Definition sample_inputs (key strategy : string) (slider : Z) (clear : bool)
  (input : option string) : Inputs :=
  {| GROQ_API_KEY := key; model_name := "gemma2-9b-it";
     temperature := 0.7%Q; max_tokens := 512;
     system_prompt := "You are a friendly, efficient assistant.";
     memory_type := strategy; window_slider := slider;
     clear_chat := clear; user_input := input |}.

(** A session with a keep-all memory holding one exchange. *)
Definition sample_session : SessionState :=
  {| memory := Some {| cls := ConversationBufferMemory;
                       chat_memory := [HumanMessage "Hello";
                                       AIMessage "Hi there"] |};
     _mem_config := Some "memory::Buffer (all)::None" |}.

(** A session with a summary memory constructed under the key ["k"] and
    the model ["gemma2-9b-it"], holding one exchange. *)
Definition sample_summary_session : SessionState :=
  {| memory := Some {| cls := ConversationSummaryMemory
                                {| llm_model_name := "gemma2-9b-it";
                                   llm_temperature := 0%Q;
                                   llm_max_tokens := None;
                                   llm_api_key := "k" |}
                                "The human greets the AI.";
                       chat_memory := [HumanMessage "Hello";
                                       AIMessage "Hi there"] |};
     _mem_config := Some "memory::Summary (long chats)::None" |}.

(** A session with a window memory of size 2 holding three exchanges. *)
Definition sample_window_session : SessionState :=
  {| memory := Some {| cls := ConversationBufferWindowMemory 2;
                       chat_memory := [HumanMessage "Hello";
                                       AIMessage "Hi there";
                                       HumanMessage "Hello";
                                       AIMessage "Hi there";
                                       HumanMessage "Hello";
                                       AIMessage "Hi there"] |};
     _mem_config := Some "memory::Window (last N)::2" |}.

(** Widget values with another key, model, temperature, token limit and
    system prompt than [sample_inputs]. *)
Definition other_inputs (strategy : string) (input : option string) : Inputs :=
  {| GROQ_API_KEY := "k2"; model_name := "llama-3.3-70b-versatile";
     temperature := 0.2%Q; max_tokens := 1024;
     system_prompt := "You are a precise coding assistant.";
     memory_type := strategy; window_slider := 6;
     clear_chat := false; user_input := input |}.

(** A service that answers completions and returns one fixed summary. *)
Definition summarizing_service (w : unit) (req : Request) : Response * unit :=
  match req with
  | chat_completion _ _ => (Completion "Hi there", w)
  | summarize _ _ _ => (Completion "The human greets the AI.", w)
  end.

(** A session with a window memory of size 6 holding one exchange. *)
Definition sample_short_window_session : SessionState :=
  {| memory := Some {| cls := ConversationBufferWindowMemory 6;
                       chat_memory := [HumanMessage "Hello";
                                       AIMessage "Hi there"] |};
     _mem_config := Some "memory::Window (last N)::6" |}.

(** ** The rerun monad *)

(** How a computation can end early. *)
Inductive Control : Type :=
| Stop
| Rerun
| Raise (e : Exception).

Inductive Result (A : Type) : Type :=
| Ok (a : A)
| Abort (c : Control).

Arguments Ok {A} a.
Arguments Abort {A} c.

(** The outcome of a computation: how it ended, the session state and the
    world it left, and what it did. *)
Record Run (World A : Type) : Type := {
  result : Result A;
  session_after : SessionState;
  world_after : World;
  events : list Event
}.

Arguments result {World A} r.
Arguments session_after {World A} r.
Arguments world_after {World A} r.
Arguments events {World A} r.

Section App.

(** The hosted model: any state, any answers. *)
Variable World : Type.
Variable groq : World -> Request -> Response * World.

(** [ChatPromptTemplate.from_messages] reads the system prompt as an
    f-string template, and [ConversationChain] accepts the prompt only when
    its variables are [history] and [input].  [system_template p] is [None]
    when one of the two constructions raises, and otherwise the function
    rendering the system message from the history and the input. *)
Variable system_template :
  string -> option (list BaseMessage -> string -> string).

Definition M (A : Type) : Type := SessionState -> World -> Run World A.

Definition ret {A : Type} (a : A) : M A :=
  fun s w =>
    {| result := Ok a; session_after := s; world_after := w; events := [] |}.

Definition bind {A B : Type} (m : M A) (f : A -> M B) : M B :=
  fun s w =>
    let r := m s w in
    match result r with
    | Ok a =>
        let r' := f a (session_after r) (world_after r) in
        {| result := result r'; session_after := session_after r';
           world_after := world_after r'; events := events r ++ events r' |}
    | Abort c =>
        {| result := Abort c; session_after := session_after r;
           world_after := world_after r; events := events r |}
    end.

Notation "x <- m ;; k" := (bind m (fun x => k))
  (at level 100, m at next level, right associativity).
Notation "m ;; k" := (bind m (fun _ => k))
  (at level 100, right associativity).

Definition abort {A : Type} (c : Control) : M A :=
  fun s w =>
    {| result := Abort c; session_after := s; world_after := w; events := [] |}.

Definition emit (e : Event) : M unit :=
  fun s w =>
    {| result := Ok tt; session_after := s; world_after := w; events := [e] |}.

Definition st_stop : M unit := abort Stop.
Definition st_rerun : M unit := abort Rerun.
Definition raise {A : Type} (e : Exception) : M A := abort (Raise e).

Definition get_session : M SessionState :=
  fun s w =>
    {| result := Ok s; session_after := s; world_after := w; events := [] |}.

Definition put_session (s' : SessionState) : M unit :=
  fun _ w =>
    {| result := Ok tt; session_after := s'; world_after := w; events := [] |}.

(** [st.session_state.memory]: an absent key raises. *)
Definition get_memory : M Memory :=
  s <- get_session ;;
  match memory s with
  | Some m => ret m
  | None => raise (AttributeError "memory")
  end.

(** In-place update of the memory object held by the session. *)
Definition set_memory (m : Memory) : M unit :=
  s <- get_session ;;
  put_session {| memory := Some m; _mem_config := _mem_config s |}.

(** One call on a [ChatGroq] client. *)
Definition invoke (req : Request) : M string :=
  fun s w =>
    let (resp, w') := groq w req in
    {| result := match resp with
                 | Completion text => Ok text
                 | Failure e => Abort (Raise e)
                 end;
       session_after := s; world_after := w';
       events := [llm_invoke req resp] |}.

(** A [for] loop with a loop-carried variable. *)
Fixpoint for_each {A B : Type} (l : list A) (acc : B) (body : B -> A -> M B)
  : M B :=
  match l with
  | [] => ret acc
  | x :: l' => acc' <- body acc x ;; for_each l' acc' body
  end.

(** ** The script *)

(** Lines 102-104: [window_k] is the slider's value under the window
    strategy and [None] otherwise. *)
Definition window_k_of (i : Inputs) : option Z :=
  if (memory_type i =? "Window (last N)")%string
  then Some (window_slider i) else None.

(** Lines 102-110.  Returns [window_k]. *)
Definition sidebar (i : Inputs) : M (option Z) :=
  let window_k := window_k_of i in
  (if clear_chat i then
     s <- get_session ;;
     (match memory s with
      | Some m => set_memory (clear m)
      | None => ret tt
      end) ;;
     emit (st_success "Chat history cleared!") ;;
     st_rerun
   else ret tt) ;;
  ret window_k.

(** Lines 113-115. *)
Definition key_check (i : Inputs) : M unit :=
  if negb (truthy (GROQ_API_KEY i)) then
    emit (st_warning
      "⚠️ Please enter your Groq API key in the sidebar to start chatting.") ;;
    st_stop
  else ret tt.

(** Lines 119-134. *)
Definition initialize_memory (i : Inputs) (window_k : option Z) : M unit :=
  let mem_key := mem_key (memory_type i) window_k in
  s <- get_session ;;
  match _mem_config s with
  | Some recorded =>
      if (recorded =? mem_key)%string then ret tt
      else put_session {| memory := Some (new_memory i window_k);
                          _mem_config := Some mem_key |}
  | None =>
      put_session {| memory := Some (new_memory i window_k);
                     _mem_config := Some mem_key |}
  end.

(** Lines 137-142. *)
Definition build_llm (i : Inputs) : ChatGroq :=
  {| llm_model_name := model_name i; llm_temperature := temperature i;
     llm_max_tokens := Some (max_tokens i); llm_api_key := GROQ_API_KEY i |}.

(** Lines 145-158: the prompt and the chain; what is kept of them is the
    rendering of the system message. *)
Definition build_chain (i : Inputs)
  : M (list BaseMessage -> string -> string) :=
  match system_template (system_prompt i) with
  | Some render => ret render
  | None => raise (ValueError "prompt")
  end.

(** The prompt of a turn: system message, history, the new input. *)
Definition format_messages (render : list BaseMessage -> string -> string)
  (history : list BaseMessage) (input : string) : list BaseMessage :=
  [SystemMessage (render history input)] ++ history ++ [HumanMessage input].

(** The body of the rendering loop (lines 162-166). *)
Definition render_message (_ : unit) (msg : BaseMessage) : M unit :=
  let role := type msg in
  if (role =? "human")%string
  then emit (st_chat_message "user" (content msg))
  else emit (st_chat_message "assistant" (content msg)).

(** Lines 161-166. *)
Definition render_history : M unit :=
  m <- get_memory ;;
  for_each (chat_memory m) tt render_message.

(** [memory.save_context]: both messages are appended; the summary memory
    then calls its summarizer on the two new messages and stores the new
    summary. *)
Definition save_context (input output : string) : M unit :=
  m <- get_memory ;;
  let messages := chat_memory m ++ [HumanMessage input; AIMessage output] in
  set_memory {| cls := cls m; chat_memory := messages |} ;;
  match cls m with
  | ConversationSummaryMemory llm buffer =>
      summary <- invoke (summarize llm buffer (lastn 2 messages)) ;;
      set_memory {| cls := ConversationSummaryMemory llm summary;
                    chat_memory := messages |}
  | _ => ret tt
  end.

(** [conversation.predict(input=...)]: load the history from the memory,
    call the model, save the exchange, return the text. *)
Definition predict (llm : ChatGroq)
  (render : list BaseMessage -> string -> string) (input : string)
  : M string :=
  m <- get_memory ;;
  let history := load_memory_variables m in
  response <- invoke (chat_completion llm (format_messages render history input)) ;;
  save_context input response ;;
  ret response.

(** The body of the typing loop (lines 183-185). *)
Definition type_char (accum : string) (ch : string) : M string :=
  let accum := (accum ++ ch)%string in
  emit (placeholder_markdown accum) ;;
  emit time_sleep ;;
  ret accum.

(** Lines 180-185. *)
Definition typing_effect (full_response : string) : M unit :=
  emit (st_chat_placeholder "assistant") ;;
  for_each (code_points full_response) EmptyString type_char ;;
  ret tt.

(** Lines 169-185. *)
Definition chat_turn (i : Inputs) (llm : ChatGroq)
  (render : list BaseMessage -> string -> string) : M unit :=
  match user_input i with
  | Some text =>
      if truthy text then
        emit (st_chat_message "user" text) ;;
        full_response <- predict llm render text ;;
        typing_effect full_response
      else ret tt
  | None => ret tt
  end.

(** Lines 188-201. *)
Definition download : M unit :=
  m <- get_memory ;;
  match chat_memory m with
  | [] => ret tt
  | _ :: _ => emit (st_download_button (history_text (chat_memory m)))
  end.

(** One execution of the script. *)
Definition script (i : Inputs) : M unit :=
  window_k <- sidebar i ;;
  key_check i ;;
  initialize_memory i window_k ;;
  let llm := build_llm i in
  render <- build_chain i ;;
  render_history ;;
  chat_turn i llm render ;;
  download.

(** The widget values of the execution that [st.rerun()] starts: the button
    and the chat input are back to rest. *)
Definition at_rest (i : Inputs) : Inputs :=
  {| GROQ_API_KEY := GROQ_API_KEY i; model_name := model_name i;
     temperature := temperature i; max_tokens := max_tokens i;
     system_prompt := system_prompt i; memory_type := memory_type i;
     window_slider := window_slider i; clear_chat := false;
     user_input := None |}.

(** Streamlit's runner: [st.rerun()] executes the script again at once, an
    uncaught exception is displayed on the page. *)
Definition finish (r : Run World unit) : Run World unit :=
  match result r with
  | Abort (Raise e) =>
      {| result := result r; session_after := session_after r;
         world_after := world_after r;
         events := events r ++ [st_exception e] |}
  | _ => r
  end.

Definition run (i : Inputs) : M unit :=
  fun s w =>
    let r := script i s w in
    match result r with
    | Abort Rerun =>
        let r' := finish (script (at_rest i) (session_after r) (world_after r)) in
        {| result := result r'; session_after := session_after r';
           world_after := world_after r'; events := events r ++ events r' |}
    | _ => finish r
    end.

(** A sequence of reruns, one per element, oldest first. *)
Fixpoint run_all (turns : list Inputs) (s : SessionState) (w : World)
  : list (Run World unit) :=
  match turns with
  | [] => []
  | i :: rest =>
      let r := run i s w in
      r :: run_all rest (session_after r) (world_after r)
  end.

(** ** Reading runs *)

Definition succeeded (r : Run World unit) : bool :=
  match result r with
  | Ok _ => true
  | Abort _ => false
  end.

Definition answered (r : Run World unit) : bool :=
  existsb is_answer (events r).

(** The message list held by the session, empty when there is no memory. *)
Definition stored_messages (s : SessionState) : list BaseMessage :=
  match memory s with
  | Some m => chat_memory m
  | None => []
  end.

(** The session state after [Clear Chat]: the memory object, when there is
    one, is emptied in place. *)
Definition cleared (s : SessionState) : SessionState :=
  match memory s with
  | Some m => {| memory := Some (clear m); _mem_config := _mem_config s |}
  | None => s
  end.

(** The session state after a sequence of runs started in [s]. *)
Definition session_at_end (s : SessionState) (runs : list (Run World unit))
  : SessionState :=
  last (map session_after runs) s.

(** The session states a browser session can be in: the empty one, and any
    state left by a rerun, whatever the widgets and the model did. *)
Inductive reachable : SessionState -> Prop :=
| reachable_empty : reachable empty_session
| reachable_run (i : Inputs) (s : SessionState) (w : World) :
    reachable s -> reachable (session_after (run i s w)).

(** Two memory objects of the same class with the same construction
    parameters. *)
Definition same_class (c c' : MemoryClass) : Prop :=
  match c, c' with
  | ConversationBufferMemory, ConversationBufferMemory => True
  | ConversationSummaryMemory llm _, ConversationSummaryMemory llm' _ =>
      llm = llm'
  | ConversationBufferWindowMemory k, ConversationBufferWindowMemory k' =>
      k = k'
  | _, _ => False
  end.

(** The recorded key and the memory object are set together, and the object
    is one the recorded key's configuration constructs. *)
Definition coherent (s : SessionState) : Prop :=
  match _mem_config s, memory s with
  | None, None => True
  | Some key, Some m =>
      exists i, key = mem_key (memory_type i) (window_k_of i)
                /\ same_class (cls m) (cls (new_memory i (window_k_of i)))
  | _, _ => False
  end.

(** The widget values of a turn against the configuration [key]: a
    message is submitted, the button is at rest, and the strategy and window
    size are those of [key]. *)
Definition turn_input (key : string) (i : Inputs) : Prop :=
  clear_chat i = false
  /\ mem_key (memory_type i) (window_k_of i) = key
  /\ exists u, user_input i = Some u /\ truthy u = true.


(** ** Strings *)

Lemma append_empty_r (s : string) : (s ++ "")%string = s.
Proof. induction s as [|c s IH]; simpl; [reflexivity | now rewrite IH]. Qed.

Lemma append_assoc (a b c : string) :
  ((a ++ b) ++ c)%string = (a ++ (b ++ c))%string.
Proof. induction a as [|x a IH]; simpl; [reflexivity | now rewrite IH]. Qed.

Lemma append_snoc (cur : string) (c : ascii) (s : string) :
  ((cur ++ String c "") ++ s)%string = (cur ++ String c s)%string.
Proof. now rewrite append_assoc. Qed.

Lemma no_colon_append_colon (a b : string) :
  no_colon (a ++ String ":" b) = false.
Proof.
  induction a as [|c a IH]; simpl.
  - reflexivity.
  - rewrite IH. apply andb_false_r.
Qed.

(** A text without colon can be cut off a string in one way only. *)
Lemma append_colons_inj (a b x y : string) :
  no_colon x = true -> no_colon y = true ->
  (a ++ "::" ++ x)%string = (b ++ "::" ++ y)%string ->
  a = b /\ x = y.
Proof.
  intros Hx Hy. revert b.
  induction a as [|c a IH]; intros [|d b] H; simpl in H.
  - injection H as ->. now split.
  - exfalso. injection H as <- H. destruct b as [|d' b]; simpl in H.
    + injection H as H. subst x. discriminate Hx.
    + injection H as <- H. subst x.
      change (String ":" (String ":" y)) with ("" ++ String ":" (String ":" y))%string in Hx.
      simpl in Hx. now rewrite (no_colon_append_colon b (String ":" y)) in Hx.
  - exfalso. injection H as -> H. destruct a as [|c' a]; simpl in H.
    + injection H as H. subst y. discriminate Hy.
    + injection H as -> H. subst y.
      now rewrite (no_colon_append_colon a (String ":" x)) in Hy.
  - injection H as -> H. destruct (IH b H) as [-> ->]. now split.
Qed.

Lemma no_colon_uint (d : Decimal.uint) :
  no_colon (NilEmpty.string_of_uint d) = true.
Proof. induction d; simpl; auto. Qed.

Lemma no_colon_str_opt (x : option Z) : no_colon (str_opt x) = true.
Proof.
  destruct x as [n|]; [|reflexivity].
  unfold str_opt, str_int. destruct (Z.to_int n); simpl; apply no_colon_uint.
Qed.

Lemma str_opt_inj (x y : option Z) : str_opt x = str_opt y -> x = y.
Proof.
  assert (Hnone : forall n, str_int n <> "None").
  { intros n H. apply (f_equal NilEmpty.int_of_string) in H.
    unfold str_int in H. rewrite NilEmpty.isi in H. discriminate H. }
  destruct x as [n|], y as [n'|]; simpl; intros H.
  - f_equal. apply DecimalZ.to_int_inj.
    apply (f_equal NilEmpty.int_of_string) in H. unfold str_int in H.
    rewrite !NilEmpty.isi in H. now injection H.
  - now apply Hnone in H.
  - symmetry in H. now apply Hnone in H.
  - reflexivity.
Qed.

(** The key determines the strategy name and the window size. *)
Lemma mem_key_inj (mt mt' : string) (wk wk' : option Z) :
  mem_key mt wk = mem_key mt' wk' -> mt = mt' /\ wk = wk'.
Proof.
  unfold mem_key. intros H. simpl in H. injection H as H.
  apply append_colons_inj in H; try apply no_colon_str_opt.
  destruct H as [-> H]. split; [reflexivity | now apply str_opt_inj].
Qed.

(** ** Transcript *)

Lemma split_blank_from_entry (e : string) :
  forall cur rest,
    has_blank_line e = false -> ends_with_newline e = false ->
    split_blank_from cur (e ++ blank_line ++ rest)
    = (cur ++ e)%string :: split_blank_from "" rest.
Proof.
  induction e as [|c e IH]; intros cur rest Hb He.
  - simpl. now rewrite append_empty_r.
  - destruct e as [|c' e].
    + simpl in He. simpl. rewrite He. simpl. reflexivity.
    + change (has_blank_line (String c (String c' e)))
        with (((c =? newline)%char && (c' =? newline)%char)
              || has_blank_line (String c' e)) in Hb.
      apply orb_false_iff in Hb. destruct Hb as [Hcc Hb].
      change (ends_with_newline (String c (String c' e)))
        with (ends_with_newline (String c' e)) in He.
      change (split_blank_from cur (String c (String c' e) ++ blank_line ++ rest))
        with (if (c =? newline)%char && (c' =? newline)%char
              then cur :: split_blank_from "" (e ++ blank_line ++ rest)
              else split_blank_from (cur ++ String c "")
                     (String c' e ++ blank_line ++ rest)).
      rewrite Hcc, (IH _ rest Hb He). now rewrite append_snoc.
Qed.

Lemma split_blank_from_last (e : string) :
  forall cur, has_blank_line e = false -> split_blank_from cur e = [(cur ++ e)%string].
Proof.
  induction e as [|c e IH]; intros cur Hb.
  - simpl. now rewrite append_empty_r.
  - destruct e as [|c' e].
    + reflexivity.
    + change (has_blank_line (String c (String c' e)))
        with (((c =? newline)%char && (c' =? newline)%char)
              || has_blank_line (String c' e)) in Hb.
      apply orb_false_iff in Hb. destruct Hb as [Hcc Hb].
      change (split_blank_from cur (String c (String c' e)))
        with (if (c =? newline)%char && (c' =? newline)%char
              then cur :: split_blank_from "" e
              else split_blank_from (cur ++ String c "") (String c' e)).
      rewrite Hcc, (IH _ Hb). now rewrite append_snoc.
Qed.

(** Splitting undoes joining when every entry splits cleanly. *)
Lemma split_blank_concat (entries : list string) :
  entries <> [] ->
  Forall (fun e => splits_cleanly e = true) entries ->
  split_blank (String.concat blank_line entries) = entries.
Proof.
  unfold split_blank. intros Hne Hall.
  induction entries as [|e rest IH]; [congruence|].
  inversion Hall as [|? ? He Hrest]; subst.
  unfold splits_cleanly in He. apply andb_true_iff in He.
  destruct He as [Hb Hn]. apply negb_true_iff in Hb, Hn.
  destruct rest as [|e' rest].
  - simpl. now rewrite split_blank_from_last.
  - change (String.concat blank_line (e :: e' :: rest))
      with (e ++ blank_line ++ String.concat blank_line (e' :: rest))%string.
    rewrite split_blank_from_entry by assumption.
    simpl append at 1. f_equal. apply IH; [discriminate | assumption].
Qed.

Lemma has_blank_line_cons (c : ascii) (t : string) :
  (c =? newline)%char = false -> has_blank_line (String c t) = has_blank_line t.
Proof. intros H. destruct t; simpl; [reflexivity | now rewrite H]. Qed.

Lemma ends_with_newline_cons (c : ascii) (t : string) :
  (c =? newline)%char = false ->
  ends_with_newline (String c t) = ends_with_newline t.
Proof. intros H. destruct t; simpl; [assumption | reflexivity]. Qed.

(** The label and the colon do not disturb the separators. *)
Lemma history_line_splits_cleanly (m : BaseMessage) :
  splits_cleanly (content m) = true -> splits_cleanly (history_line m) = true.
Proof.
  unfold splits_cleanly, history_line. intros H.
  destruct m as [t|t|t]; cbn [type content upper append] in *;
    rewrite !has_blank_line_cons, !ends_with_newline_cons by reflexivity;
    exact H.
Qed.

(** ** The blocks of the script *)

Lemma bind_ok {A B : Type} (m : M A) (f : A -> M B) (s s' : SessionState)
  (w w' : World) (a : A) (ev : list Event) :
  m s w = {| result := Ok a; session_after := s'; world_after := w';
             events := ev |} ->
  bind m f s w
  = {| result := result (f a s' w');
       session_after := session_after (f a s' w');
       world_after := world_after (f a s' w');
       events := ev ++ events (f a s' w') |}.
Proof. intros H. unfold bind. rewrite H. reflexivity. Qed.

Lemma bind_abort {A B : Type} (m : M A) (f : A -> M B) (s s' : SessionState)
  (w w' : World) (c : Control) (ev : list Event) :
  m s w = {| result := Abort c; session_after := s'; world_after := w';
             events := ev |} ->
  bind m f s w
  = {| result := Abort c; session_after := s'; world_after := w';
       events := ev |}.
Proof. intros H. unfold bind. rewrite H. reflexivity. Qed.

Tactic Notation "proj" :=
  cbn [result session_after world_after events app].
Tactic Notation "proj" "in" hyp(H) :=
  cbn [result session_after world_after events app] in H.
Tactic Notation "ok_by" tactic(t) := erewrite bind_ok by t; proj.
Tactic Notation "abort_by" tactic(t) := erewrite bind_abort by t; proj.

Lemma get_memory_run (s : SessionState) (w : World) (m : Memory) :
  memory s = Some m ->
  get_memory s w
  = {| result := Ok m; session_after := s; world_after := w; events := [] |}.
Proof.
  intros Hm. unfold get_memory. ok_by reflexivity. rewrite Hm. reflexivity.
Qed.

Lemma get_memory_absent (s : SessionState) (w : World) :
  memory s = None ->
  get_memory s w
  = {| result := Abort (Raise (AttributeError "memory")); session_after := s;
       world_after := w; events := [] |}.
Proof.
  intros Hm. unfold get_memory. ok_by reflexivity. rewrite Hm. reflexivity.
Qed.

Lemma set_memory_run (m : Memory) (s : SessionState) (w : World) :
  set_memory m s w
  = {| result := Ok tt;
       session_after := {| memory := Some m; _mem_config := _mem_config s |};
       world_after := w; events := [] |}.
Proof. reflexivity. Qed.

Lemma render_loop_run (l : list BaseMessage) (s : SessionState) (w : World) :
  for_each l tt render_message s w
  = {| result := Ok tt; session_after := s; world_after := w;
       events := map bubble l |}.
Proof.
  induction l as [|msg l IH]; [reflexivity|].
  cbn [for_each map].
  assert (H : render_message tt msg s w
              = {| result := Ok tt; session_after := s; world_after := w;
                   events := [bubble msg] |}).
  { unfold render_message, bubble.
    destruct (type msg =? "human")%string; reflexivity. }
  ok_by (exact H). now rewrite IH.
Qed.

Lemma render_history_run (s : SessionState) (w : World) (m : Memory) :
  memory s = Some m ->
  render_history s w
  = {| result := Ok tt; session_after := s; world_after := w;
       events := map bubble (chat_memory m) |}.
Proof.
  intros Hm. unfold render_history.
  ok_by (apply get_memory_run; exact Hm). now rewrite render_loop_run.
Qed.

Lemma typing_loop_run (l : list string) (accum : string) (s : SessionState)
  (w : World) :
  for_each l accum type_char s w
  = {| result := Ok (accum ++ String.concat "" l)%string;
       session_after := s; world_after := w; events := reveal accum l |}.
Proof.
  revert accum. induction l as [|ch l IH]; intros accum.
  - simpl. now rewrite append_empty_r.
  - cbn [for_each reveal].
    assert (H : type_char accum ch s w
                = {| result := Ok (accum ++ ch)%string;
                     session_after := s; world_after := w;
                     events := [placeholder_markdown (accum ++ ch);
                                time_sleep] |}) by reflexivity.
    ok_by (exact H). rewrite IH. proj. do 2 f_equal.
    rewrite append_assoc. f_equal. destruct l as [|ch' l]; simpl.
    + now rewrite append_empty_r.
    + reflexivity.
Qed.

Lemma typing_effect_run (full_response : string) (s : SessionState)
  (w : World) :
  typing_effect full_response s w
  = {| result := Ok tt; session_after := s; world_after := w;
       events := st_chat_placeholder "assistant"
                 :: reveal "" (code_points full_response) |}.
Proof.
  unfold typing_effect. ok_by reflexivity. ok_by (apply typing_loop_run).
  now rewrite app_nil_r.
Qed.

Lemma initialize_memory_run (i : Inputs) (wk : option Z) (s : SessionState)
  (w : World) :
  initialize_memory i wk s w
  = {| result := Ok tt;
       session_after := session_after (initialize_memory i wk s w);
       world_after := w; events := [] |}.
Proof.
  unfold initialize_memory. unfold bind, get_session. proj.
  destruct (_mem_config s) as [recorded|]; [|reflexivity].
  destruct (recorded =? _)%string; reflexivity.
Qed.

(** The session state the memory selector leaves. *)
Lemma initialize_memory_session (i : Inputs) (wk : option Z)
  (s : SessionState) (w : World) :
  session_after (initialize_memory i wk s w)
  = if match _mem_config s with
       | Some recorded => (recorded =? mem_key (memory_type i) wk)%string
       | None => false
       end
    then s
    else {| memory := Some (new_memory i wk);
            _mem_config := Some (mem_key (memory_type i) wk) |}.
Proof.
  unfold initialize_memory. unfold bind, get_session. proj.
  destruct (_mem_config s) as [recorded|]; [|reflexivity].
  destruct (recorded =? _)%string; reflexivity.
Qed.

Lemma lastn_two_appended (l : list BaseMessage) (a b : BaseMessage) :
  lastn 2 (l ++ [a; b]) = [a; b].
Proof.
  unfold lastn. rewrite length_app. simpl length.
  replace (length l + 2 - 2)%nat with (length l + 0)%nat by lia.
  rewrite skipn_app, Nat.add_0_r, skipn_all.
  replace (length l - length l)%nat with 0%nat by lia. reflexivity.
Qed.

Lemma invoke_ok (req : Request) (s : SessionState) (w w' : World)
  (text : string) :
  groq w req = (Completion text, w') ->
  invoke req s w
  = {| result := Ok text; session_after := s; world_after := w';
       events := [llm_invoke req (Completion text)] |}.
Proof. intros H. unfold invoke. now rewrite H. Qed.

Lemma invoke_failed (req : Request) (s : SessionState) (w w' : World)
  (e : Exception) :
  groq w req = (Failure e, w') ->
  invoke req s w
  = {| result := Abort (Raise e); session_after := s; world_after := w';
       events := [llm_invoke req (Failure e)] |}.
Proof. intros H. unfold invoke. now rewrite H. Qed.

Lemma sidebar_run (i : Inputs) (s : SessionState) (w : World) :
  clear_chat i = false ->
  sidebar i s w
  = {| result := Ok (window_k_of i); session_after := s; world_after := w;
       events := [] |}.
Proof. intros H. unfold sidebar. rewrite H. reflexivity. Qed.

Lemma sidebar_clear_run (i : Inputs) (s : SessionState) (w : World) :
  clear_chat i = true ->
  sidebar i s w
  = {| result := Abort Rerun; session_after := cleared s; world_after := w;
       events := [st_success "Chat history cleared!"] |}.
Proof.
  intros H. unfold sidebar, cleared. rewrite H.
  destruct (memory s) as [m|] eqn:Hm.
  - unfold bind, get_session. proj. rewrite Hm. reflexivity.
  - unfold bind, get_session. proj. rewrite Hm. destruct s; reflexivity.
Qed.

Lemma key_check_run (i : Inputs) (s : SessionState) (w : World) :
  truthy (GROQ_API_KEY i) = true ->
  key_check i s w
  = {| result := Ok tt; session_after := s; world_after := w; events := [] |}.
Proof. intros H. unfold key_check. rewrite H. reflexivity. Qed.

Lemma key_check_stop (i : Inputs) (s : SessionState) (w : World) :
  truthy (GROQ_API_KEY i) = false ->
  key_check i s w
  = {| result := Abort Stop; session_after := s; world_after := w;
       events := [st_warning
         "⚠️ Please enter your Groq API key in the sidebar to start chatting."] |}.
Proof. intros H. unfold key_check. rewrite H. reflexivity. Qed.

Lemma download_run (s : SessionState) (w : World) (m : Memory) :
  memory s = Some m ->
  download s w
  = {| result := Ok tt; session_after := s; world_after := w;
       events := match chat_memory m with
                 | [] => []
                 | _ :: _ => [st_download_button (history_text (chat_memory m))]
                 end |}.
Proof.
  intros Hm. unfold download. ok_by (apply get_memory_run; exact Hm).
  destruct (chat_memory m); reflexivity.
Qed.

(** ** One execution of the script, case by case *)

(** The button was pressed. *)
Lemma script_clear (i : Inputs) (s : SessionState) (w : World) :
  clear_chat i = true ->
  script i s w
  = {| result := Abort Rerun; session_after := cleared s; world_after := w;
       events := [st_success "Chat history cleared!"] |}.
Proof.
  intros H. unfold script. abort_by (apply sidebar_clear_run; exact H).
  reflexivity.
Qed.

(** No key. *)
Lemma script_no_key (i : Inputs) (s : SessionState) (w : World) :
  clear_chat i = false -> truthy (GROQ_API_KEY i) = false ->
  script i s w
  = {| result := Abort Stop; session_after := s; world_after := w;
       events := [st_warning
         "⚠️ Please enter your Groq API key in the sidebar to start chatting."] |}.
Proof.
  intros Hc Hk. unfold script. ok_by (apply sidebar_run; exact Hc).
  abort_by (apply key_check_stop; exact Hk). reflexivity.
Qed.

(** The prompt or the chain cannot be built. *)
Lemma script_no_chain (i : Inputs) (s : SessionState) (w : World) :
  clear_chat i = false -> truthy (GROQ_API_KEY i) = true ->
  system_template (system_prompt i) = None ->
  script i s w
  = {| result := Abort (Raise (ValueError "prompt"));
       session_after := session_after (initialize_memory i (window_k_of i) s w);
       world_after := w; events := [] |}.
Proof.
  intros Hc Hk Ht. unfold script. ok_by (apply sidebar_run; exact Hc).
  ok_by (apply key_check_run; exact Hk).
  ok_by (apply initialize_memory_run).
  unfold build_chain. rewrite Ht. reflexivity.
Qed.

(** Nothing was typed. *)
Lemma script_idle (i : Inputs) (s : SessionState) (w : World)
  (render : list BaseMessage -> string -> string) (m : Memory) :
  clear_chat i = false -> truthy (GROQ_API_KEY i) = true ->
  system_template (system_prompt i) = Some render ->
  match user_input i with Some u => truthy u | None => false end = false ->
  memory (session_after (initialize_memory i (window_k_of i) s w)) = Some m ->
  script i s w
  = {| result := Ok tt;
       session_after := session_after (initialize_memory i (window_k_of i) s w);
       world_after := w;
       events := map bubble (chat_memory m)
                 ++ match chat_memory m with
                    | [] => []
                    | _ :: _ =>
                        [st_download_button (history_text (chat_memory m))]
                    end |}.
Proof.
  intros Hc Hk Ht Hu Hm. unfold script. ok_by (apply sidebar_run; exact Hc).
  ok_by (apply key_check_run; exact Hk).
  ok_by (apply initialize_memory_run).
  unfold build_chain. rewrite Ht. ok_by reflexivity.
  ok_by (apply render_history_run; exact Hm).
  assert (Hturn : forall s' w', chat_turn i (build_llm i) render s' w'
            = {| result := Ok tt; session_after := s'; world_after := w';
                 events := [] |}).
  { intros s' w'. unfold chat_turn. destruct (user_input i) as [u|].
    - rewrite Hu. reflexivity.
    - reflexivity. }
  ok_by (apply Hturn). rewrite (download_run _ _ m Hm). reflexivity.
Qed.

(** [save_context], by the answer of the summarizer. *)
Lemma save_context_run (input output : string) (s : SessionState) (w : World)
  (m : Memory) :
  memory s = Some m ->
  let messages := chat_memory m ++ [HumanMessage input; AIMessage output] in
  save_context input output s w
  = match cls m with
    | ConversationSummaryMemory llm buffer =>
        let sreq := summarize llm buffer
                      [HumanMessage input; AIMessage output] in
        let (sresp, w2) := groq w sreq in
        match sresp with
        | Failure e =>
            {| result := Abort (Raise e);
               session_after :=
                 {| memory := Some {| cls := cls m; chat_memory := messages |};
                    _mem_config := _mem_config s |};
               world_after := w2; events := [llm_invoke sreq sresp] |}
        | Completion summary =>
            {| result := Ok tt;
               session_after :=
                 {| memory := Some {| cls := ConversationSummaryMemory
                                               llm summary;
                                      chat_memory := messages |};
                    _mem_config := _mem_config s |};
               world_after := w2; events := [llm_invoke sreq sresp] |}
        end
    | _ =>
        {| result := Ok tt;
           session_after :=
             {| memory := Some {| cls := cls m; chat_memory := messages |};
                _mem_config := _mem_config s |};
           world_after := w; events := [] |}
    end.
Proof.
  intros Hm messages. unfold save_context.
  ok_by (apply get_memory_run; exact Hm). ok_by (apply set_memory_run).
  subst messages. destruct (cls m) as [|llm buffer|k] eqn:Hcls.
  - reflexivity.
  - rewrite lastn_two_appended.
    destruct (groq w (summarize llm buffer
                        [HumanMessage input; AIMessage output]))
      as [[summary|e] w2] eqn:G.
    + ok_by (apply invoke_ok; exact G). reflexivity.
    + abort_by (apply invoke_failed; exact G). reflexivity.
  - reflexivity.
Qed.

(** [conversation.predict], by the answers of the model. *)
Lemma predict_run (llm0 : ChatGroq)
  (render : list BaseMessage -> string -> string) (u : string)
  (s : SessionState) (w : World) (m : Memory) :
  memory s = Some m ->
  let req := chat_completion llm0
               (format_messages render (load_memory_variables m) u) in
  predict llm0 render u s w
  = let (resp, w1) := groq w req in
    match resp with
    | Failure e =>
        {| result := Abort (Raise e); session_after := s; world_after := w1;
           events := [llm_invoke req resp] |}
    | Completion r =>
        let messages := chat_memory m ++ [HumanMessage u; AIMessage r] in
        match cls m with
        | ConversationSummaryMemory llm buffer =>
            let sreq := summarize llm buffer [HumanMessage u; AIMessage r] in
            let (sresp, w2) := groq w1 sreq in
            match sresp with
            | Failure e =>
                {| result := Abort (Raise e);
                   session_after :=
                     {| memory := Some {| cls := cls m;
                                          chat_memory := messages |};
                        _mem_config := _mem_config s |};
                   world_after := w2;
                   events := [llm_invoke req resp; llm_invoke sreq sresp] |}
            | Completion summary =>
                {| result := Ok r;
                   session_after :=
                     {| memory := Some {| cls := ConversationSummaryMemory
                                                   llm summary;
                                          chat_memory := messages |};
                        _mem_config := _mem_config s |};
                   world_after := w2;
                   events := [llm_invoke req resp; llm_invoke sreq sresp] |}
            end
        | _ =>
            {| result := Ok r;
               session_after :=
                 {| memory := Some {| cls := cls m; chat_memory := messages |};
                    _mem_config := _mem_config s |};
               world_after := w1;
               events := [llm_invoke req resp] |}
        end
    end.
Proof.
  intros Hm req. unfold predict. ok_by (apply get_memory_run; exact Hm).
  fold req. destruct (groq w req) as [[r|e] w1] eqn:G.
  - ok_by (apply invoke_ok; exact G).
    pose proof (save_context_run u r s w1 m Hm) as Hs. cbv zeta in Hs.
    destruct (cls m) as [|llm buffer|k] eqn:Hcls.
    + ok_by (exact Hs). reflexivity.
    + destruct (groq w1 (summarize llm buffer [HumanMessage u; AIMessage r]))
        as [[summary|e] w2] eqn:G2.
      * ok_by (exact Hs). reflexivity.
      * abort_by (exact Hs). reflexivity.
    + ok_by (exact Hs). reflexivity.
  - abort_by (apply invoke_failed; exact G). reflexivity.
Qed.

Lemma download_after_exchange (l : list BaseMessage) (a b : BaseMessage) :
  match l ++ [a; b] with
  | [] => []
  | _ :: _ => [st_download_button (history_text (l ++ [a; b]))]
  end = [st_download_button (history_text (l ++ [a; b]))].
Proof. destruct l; reflexivity. Qed.

Ltac close_turn :=
  proj; cbn [chat_memory]; rewrite ?download_after_exchange;
  repeat rewrite <- app_assoc; simpl app; reflexivity.

(** A message was typed: the whole turn, by the answers of the model. *)
Lemma script_turn (i : Inputs) (s : SessionState) (w : World)
  (render : list BaseMessage -> string -> string) (u : string) (m : Memory) :
  clear_chat i = false -> truthy (GROQ_API_KEY i) = true ->
  system_template (system_prompt i) = Some render ->
  user_input i = Some u -> truthy u = true ->
  memory (session_after (initialize_memory i (window_k_of i) s w)) = Some m ->
  let s1 := session_after (initialize_memory i (window_k_of i) s w) in
  let req := chat_completion (build_llm i)
               (format_messages render (load_memory_variables m) u) in
  let shown := map bubble (chat_memory m) ++ [st_chat_message "user" u] in
  script i s w
  = let (resp, w1) := groq w req in
    match resp with
    | Failure e =>
        {| result := Abort (Raise e); session_after := s1; world_after := w1;
           events := shown ++ [llm_invoke req resp] |}
    | Completion r =>
        let messages := chat_memory m ++ [HumanMessage u; AIMessage r] in
        let typed := st_chat_placeholder "assistant"
                     :: reveal "" (code_points r)
                     ++ [st_download_button (history_text messages)] in
        match cls m with
        | ConversationSummaryMemory llm buffer =>
            let sreq := summarize llm buffer [HumanMessage u; AIMessage r] in
            let (sresp, w2) := groq w1 sreq in
            match sresp with
            | Failure e =>
                {| result := Abort (Raise e);
                   session_after :=
                     {| memory := Some {| cls := cls m;
                                          chat_memory := messages |};
                        _mem_config := _mem_config s1 |};
                   world_after := w2;
                   events := shown ++ [llm_invoke req resp;
                                       llm_invoke sreq sresp] |}
            | Completion summary =>
                {| result := Ok tt;
                   session_after :=
                     {| memory := Some {| cls := ConversationSummaryMemory
                                                   llm summary;
                                          chat_memory := messages |};
                        _mem_config := _mem_config s1 |};
                   world_after := w2;
                   events := shown ++ [llm_invoke req resp;
                                       llm_invoke sreq sresp] ++ typed |}
            end
        | _ =>
            {| result := Ok tt;
               session_after :=
                 {| memory := Some {| cls := cls m; chat_memory := messages |};
                    _mem_config := _mem_config s1 |};
               world_after := w1;
               events := shown ++ [llm_invoke req resp] ++ typed |}
        end
    end.
Proof.
  intros Hc Hk Ht Hu Hu' Hm s1 req shown. subst shown. unfold script.
  ok_by (apply sidebar_run; exact Hc).
  ok_by (apply key_check_run; exact Hk).
  ok_by (apply initialize_memory_run).
  unfold build_chain. rewrite Ht. ok_by reflexivity.
  ok_by (apply render_history_run; exact Hm). fold s1. simpl app.
  pose proof (predict_run (build_llm i) render u s1 w m Hm) as Hp.
  cbv zeta in Hp. fold req in Hp.
  assert (Hturn : chat_turn i (build_llm i) render s1 w
            = let r := predict (build_llm i) render u s1 w in
              {| result := match result r with
                           | Ok _ => Ok tt
                           | Abort c => Abort c
                           end;
                 session_after := session_after r;
                 world_after := world_after r;
                 events := st_chat_message "user" u :: events r
                           ++ match result r with
                              | Ok text => st_chat_placeholder "assistant"
                                  :: reveal "" (code_points text)
                              | Abort _ => []
                              end |}).
  { remember (predict (build_llm i) render u s1 w) as P eqn:HP.
    unfold chat_turn. rewrite Hu, Hu'. ok_by reflexivity.
    unfold bind. rewrite <- HP.
    destruct P as [[text|c] sp wp evp]; proj.
    - now rewrite typing_effect_run.
    - now rewrite app_nil_r. }
  cbv zeta in Hturn. rewrite Hp in Hturn. clear Hp.
  destruct (groq w req) as [[r|e] w1] eqn:G.
  - destruct (cls m) as [|llm buffer|k] eqn:Hcls.
    + proj in Hturn. ok_by (exact Hturn).
      erewrite download_run by reflexivity. close_turn.
    + destruct (groq w1 (summarize llm buffer [HumanMessage u; AIMessage r]))
        as [[summary|e] w2] eqn:G2.
      * proj in Hturn. ok_by (exact Hturn).
        erewrite download_run by reflexivity. close_turn.
      * proj in Hturn. abort_by (exact Hturn). close_turn.
    + proj in Hturn. ok_by (exact Hturn).
      erewrite download_run by reflexivity. close_turn.
  - proj in Hturn. abort_by (exact Hturn). close_turn.
Qed.

Lemma render_history_absent (s : SessionState) (w : World) :
  memory s = None ->
  render_history s w
  = {| result := Abort (Raise (AttributeError "memory")); session_after := s;
       world_after := w; events := [] |}.
Proof.
  intros Hm. unfold render_history.
  abort_by (apply get_memory_absent; exact Hm). reflexivity.
Qed.

(** The recorded key matches but the session holds no memory object. *)
Lemma script_no_memory (i : Inputs) (s : SessionState) (w : World)
  (render : list BaseMessage -> string -> string) :
  clear_chat i = false -> truthy (GROQ_API_KEY i) = true ->
  system_template (system_prompt i) = Some render ->
  memory (session_after (initialize_memory i (window_k_of i) s w)) = None ->
  script i s w
  = {| result := Abort (Raise (AttributeError "memory"));
       session_after := session_after (initialize_memory i (window_k_of i) s w);
       world_after := w; events := [] |}.
Proof.
  intros Hc Hk Ht Hm. unfold script. ok_by (apply sidebar_run; exact Hc).
  ok_by (apply key_check_run; exact Hk).
  ok_by (apply initialize_memory_run).
  unfold build_chain. rewrite Ht. ok_by reflexivity.
  abort_by (apply render_history_absent; exact Hm). reflexivity.
Qed.

(** ** The memory selector *)

Lemma initialize_memory_same_key (i : Inputs) (s : SessionState) (w : World) :
  _mem_config s = Some (mem_key (memory_type i) (window_k_of i)) ->
  session_after (initialize_memory i (window_k_of i) s w) = s.
Proof.
  intros H. rewrite initialize_memory_session, H.
  now rewrite String.eqb_refl.
Qed.

Lemma initialize_memory_other_key (i : Inputs) (s : SessionState) (w : World) :
  _mem_config s <> Some (mem_key (memory_type i) (window_k_of i)) ->
  session_after (initialize_memory i (window_k_of i) s w)
  = {| memory := Some (new_memory i (window_k_of i));
       _mem_config := Some (mem_key (memory_type i) (window_k_of i)) |}.
Proof.
  intros H. rewrite initialize_memory_session.
  destruct (_mem_config s) as [recorded|]; [|reflexivity].
  destruct (String.eqb_spec recorded
              (mem_key (memory_type i) (window_k_of i))) as [->|];
    [now elim H | reflexivity].
Qed.

Lemma new_memory_empty (i : Inputs) (wk : option Z) :
  chat_memory (new_memory i wk) = [].
Proof.
  unfold new_memory.
  repeat match goal with |- context [if ?b then _ else _] => destruct b end;
    reflexivity.
Qed.

Lemma initialize_memory_key (i : Inputs) (s : SessionState) (w : World) :
  _mem_config (session_after (initialize_memory i (window_k_of i) s w))
  = Some (mem_key (memory_type i) (window_k_of i)).
Proof.
  rewrite initialize_memory_session.
  destruct (_mem_config s) as [recorded|] eqn:Hcfg; [|reflexivity].
  destruct (String.eqb_spec recorded
              (mem_key (memory_type i) (window_k_of i))) as [->|];
    [exact Hcfg | reflexivity].
Qed.

(** ** The runner *)

Lemma finish_session (r : Run World unit) :
  session_after (finish r) = session_after r.
Proof. unfold finish. now destruct (result r) as [|[| |]]. Qed.

Lemma finish_result (r : Run World unit) : result (finish r) = result r.
Proof.
  unfold finish. destruct (result r) as [|[| |]] eqn:E; try exact E.
  reflexivity.
Qed.

(** An execution in which nothing is typed and the button is not pressed
    leaves the session state the memory selector leaves. *)
Lemma script_idle_session (i : Inputs) (s : SessionState) (w : World) :
  clear_chat i = false -> truthy (GROQ_API_KEY i) = true ->
  match user_input i with Some u => truthy u | None => false end = false ->
  session_after (script i s w)
  = session_after (initialize_memory i (window_k_of i) s w).
Proof.
  intros Hc Hk Hu.
  destruct (system_template (system_prompt i)) as [render|] eqn:Ht.
  - destruct (memory (session_after (initialize_memory i (window_k_of i) s w)))
      as [m|] eqn:Hm.
    + rewrite (script_idle i s w render m Hc Hk Ht Hu Hm). reflexivity.
    + rewrite (script_no_memory i s w render Hc Hk Ht Hm). reflexivity.
  - rewrite (script_no_chain i s w Hc Hk Ht). reflexivity.
Qed.

(** Splits a turn by the answers of the model and the class of the memory. *)
Ltac ask_groq :=
  match goal with
  | |- context [groq ?w ?req] =>
      let G := fresh "G" in
      destruct (groq w req) as [[?r|?e] ?w] eqn:G
  end.

Ltac turn_cases m :=
  cbv zeta; ask_groq; [destruct (cls m) eqn:?Hcls; [ | ask_groq | ] | ].

Lemma run_clear (i : Inputs) (s : SessionState) (w : World) :
  clear_chat i = true ->
  run i s w
  = let r' := finish (script (at_rest i) (cleared s) w) in
    {| result := result r'; session_after := session_after r';
       world_after := world_after r';
       events := st_success "Chat history cleared!" :: events r' |}.
Proof. intros Hc. unfold run. rewrite (script_clear i s w Hc). reflexivity. Qed.

Lemma script_not_rerun (i : Inputs) (s : SessionState) (w : World) :
  clear_chat i = false -> result (script i s w) <> Abort Rerun.
Proof.
  intros Hc. destruct (truthy (GROQ_API_KEY i)) eqn:Hk.
  2:{ rewrite (script_no_key i s w Hc Hk). discriminate. }
  destruct (system_template (system_prompt i)) as [render|] eqn:Ht.
  2:{ rewrite (script_no_chain i s w Hc Hk Ht). discriminate. }
  destruct (memory (session_after (initialize_memory i (window_k_of i) s w)))
    as [m|] eqn:Hm.
  2:{ rewrite (script_no_memory i s w render Hc Hk Ht Hm). discriminate. }
  destruct (user_input i) as [u|] eqn:Hu.
  - destruct (truthy u) eqn:Hu'.
    + rewrite (script_turn i s w render u m Hc Hk Ht Hu Hu' Hm).
      turn_cases m; discriminate.
    + rewrite (script_idle i s w render m Hc Hk Ht); try assumption.
      * discriminate.
      * now rewrite Hu.
  - rewrite (script_idle i s w render m Hc Hk Ht); try assumption.
    + discriminate.
    + now rewrite Hu.
Qed.

Lemma run_no_clear (i : Inputs) (s : SessionState) (w : World) :
  clear_chat i = false -> run i s w = finish (script i s w).
Proof.
  intros Hc. unfold run. pose proof (script_not_rerun i s w Hc) as H.
  destruct (result (script i s w)) as [|[| |]]; try reflexivity. now elim H.
Qed.

Lemma run_idle_session (i : Inputs) (s : SessionState) (w : World) :
  clear_chat i = false -> truthy (GROQ_API_KEY i) = true ->
  match user_input i with Some u => truthy u | None => false end = false ->
  session_after (run i s w)
  = session_after (initialize_memory i (window_k_of i) s w).
Proof.
  intros Hc Hk Hu. rewrite (run_no_clear i s w Hc), finish_session.
  now apply script_idle_session.
Qed.

(** A run that gets past the key check ends with the requested key
    recorded. *)
Lemma script_records_key (i : Inputs) (s : SessionState) (w : World) :
  clear_chat i = false -> truthy (GROQ_API_KEY i) = true ->
  _mem_config (session_after (script i s w))
  = Some (mem_key (memory_type i) (window_k_of i)).
Proof.
  intros Hc Hk. pose proof (initialize_memory_key i s w) as H1.
  destruct (system_template (system_prompt i)) as [render|] eqn:Ht.
  2:{ now rewrite (script_no_chain i s w Hc Hk Ht). }
  destruct (memory (session_after (initialize_memory i (window_k_of i) s w)))
    as [m|] eqn:Hm.
  2:{ now rewrite (script_no_memory i s w render Hc Hk Ht Hm). }
  assert (Hidle :
    match user_input i with Some u => truthy u | None => false end = false ->
    _mem_config (session_after (script i s w))
    = Some (mem_key (memory_type i) (window_k_of i))).
  { intros Hu. now rewrite (script_idle i s w render m Hc Hk Ht Hu Hm). }
  destruct (user_input i) as [u|] eqn:Hu; [|now apply Hidle].
  destruct (truthy u) eqn:Hu'; [|now apply Hidle].
  rewrite (script_turn i s w render u m Hc Hk Ht Hu Hu' Hm).
  turn_cases m; exact H1.
Qed.

Lemma run_records_key (i : Inputs) (s : SessionState) (w : World) :
  truthy (GROQ_API_KEY i) = true ->
  _mem_config (session_after (run i s w))
  = Some (mem_key (memory_type i) (window_k_of i)).
Proof.
  intros Hk. destruct (clear_chat i) eqn:Hc.
  - rewrite (run_clear i s w Hc). cbv zeta. proj. rewrite finish_session.
    now apply (script_records_key (at_rest i)).
  - rewrite (run_no_clear i s w Hc), finish_session.
    now apply script_records_key.
Qed.

Lemma cleared_key (s : SessionState) : _mem_config (cleared s) = _mem_config s.
Proof. unfold cleared. now destruct (memory s). Qed.

(** A run that gets past the key check with another key than the recorded
    one, and in which nothing is typed, ends with an empty message list. *)
Lemma run_switch_empty (i : Inputs) (s : SessionState) (w : World) :
  truthy (GROQ_API_KEY i) = true -> user_input i = None ->
  _mem_config s <> Some (mem_key (memory_type i) (window_k_of i)) ->
  stored_messages (session_after (run i s w)) = [].
Proof.
  intros Hk Hu Hkey. destruct (clear_chat i) eqn:Hc.
  - rewrite (run_clear i s w Hc). cbv zeta. proj. rewrite finish_session.
    rewrite (script_idle_session (at_rest i) (cleared s) w eq_refl Hk eq_refl).
    rewrite (initialize_memory_other_key (at_rest i) (cleared s) w)
      by (now rewrite cleared_key).
    unfold stored_messages. cbn [memory]. apply new_memory_empty.
  - rewrite (run_idle_session i s w Hc Hk) by (now rewrite Hu).
    rewrite (initialize_memory_other_key i s w Hkey).
    unfold stored_messages. cbn [memory]. apply new_memory_empty.
Qed.

(** A run that gets past the key check with another key than the recorded
    one ends with an empty message list or with the exchange of its own
    turn. *)
Lemma run_switch_stored (i : Inputs) (s : SessionState) (w : World) :
  truthy (GROQ_API_KEY i) = true ->
  _mem_config s <> Some (mem_key (memory_type i) (window_k_of i)) ->
  stored_messages (session_after (run i s w)) = []
  \/ exists u answer,
       user_input i = Some u /\ clear_chat i = false
       /\ stored_messages (session_after (run i s w))
          = [HumanMessage u; AIMessage answer].
Proof.
  intros Hk Hkey. destruct (clear_chat i) eqn:Hc.
  { left. rewrite (run_clear i s w Hc). cbv zeta. proj. rewrite finish_session.
    rewrite (script_idle_session (at_rest i) (cleared s) w eq_refl Hk eq_refl).
    rewrite (initialize_memory_other_key (at_rest i) (cleared s) w)
      by (now rewrite cleared_key).
    unfold stored_messages. cbn [memory]. apply new_memory_empty. }
  assert (Hidle :
    match user_input i with Some u => truthy u | None => false end = false ->
    stored_messages (session_after (run i s w)) = []).
  { intros Hu. rewrite (run_idle_session i s w Hc Hk Hu).
    rewrite (initialize_memory_other_key i s w Hkey).
    unfold stored_messages. cbn [memory]. apply new_memory_empty. }
  destruct (user_input i) as [u|] eqn:Hu; [|left; now apply Hidle].
  destruct (truthy u) eqn:Hu'; [|left; now apply Hidle].
  rewrite (run_no_clear i s w Hc), finish_session.
  pose proof (initialize_memory_other_key i s w Hkey) as Hs1.
  assert (Hm : memory (session_after (initialize_memory i (window_k_of i) s w))
               = Some (new_memory i (window_k_of i)))
    by (now rewrite Hs1).
  destruct (system_template (system_prompt i)) as [render|] eqn:Ht.
  2:{ left. rewrite (script_no_chain i s w Hc Hk Ht).
      unfold stored_messages. cbn [session_after]. rewrite Hm.
      apply new_memory_empty. }
  rewrite (script_turn i s w render u _ Hc Hk Ht Hu Hu' Hm).
  pose proof (new_memory_empty i (window_k_of i)) as Hempty.
  turn_cases (new_memory i (window_k_of i)); unfold stored_messages;
    cbn [session_after memory chat_memory]; rewrite ?Hempty;
    first [ right; do 2 eexists; repeat split; reflexivity
          | left; rewrite Hm; exact Hempty ].
Qed.

(** Only the key check stops a run, and only when no key is entered. *)
Lemma script_not_stop (i : Inputs) (s : SessionState) (w : World) :
  clear_chat i = false -> truthy (GROQ_API_KEY i) = true ->
  result (script i s w) <> Abort Stop.
Proof.
  intros Hc Hk.
  destruct (system_template (system_prompt i)) as [render|] eqn:Ht.
  2:{ rewrite (script_no_chain i s w Hc Hk Ht). discriminate. }
  destruct (memory (session_after (initialize_memory i (window_k_of i) s w)))
    as [m|] eqn:Hm.
  2:{ rewrite (script_no_memory i s w render Hc Hk Ht Hm). discriminate. }
  destruct (user_input i) as [u|] eqn:Hu.
  - destruct (truthy u) eqn:Hu'.
    + rewrite (script_turn i s w render u m Hc Hk Ht Hu Hu' Hm).
      turn_cases m; discriminate.
    + rewrite (script_idle i s w render m Hc Hk Ht); try assumption.
      * discriminate.
      * now rewrite Hu.
  - rewrite (script_idle i s w render m Hc Hk Ht); try assumption.
    + discriminate.
    + now rewrite Hu.
Qed.

Lemma run_not_stop (i : Inputs) (s : SessionState) (w : World) :
  truthy (GROQ_API_KEY i) = true -> result (run i s w) <> Abort Stop.
Proof.
  intros Hk. destruct (clear_chat i) eqn:Hc.
  - rewrite (run_clear i s w Hc). cbv zeta. proj. rewrite finish_result.
    now apply (script_not_stop (at_rest i)).
  - rewrite (run_no_clear i s w Hc), finish_result.
    now apply script_not_stop.
Qed.

(** ** Looking for an event *)

Lemma existsb_bubbles (p : Event -> bool) (l : list BaseMessage) :
  (forall name body, p (st_chat_message name body) = false) ->
  existsb p (map bubble l) = false.
Proof.
  intros Hp. induction l as [|msg l IH]; [reflexivity|].
  cbn [map existsb]. rewrite IH. unfold bubble.
  destruct (type msg =? "human")%string; now rewrite Hp.
Qed.

Lemma existsb_reveal (p : Event -> bool) (l : list string) (accum : string) :
  (forall body, p (placeholder_markdown body) = false) ->
  p time_sleep = false ->
  existsb p (reveal accum l) = false.
Proof.
  intros Hp Hs. revert accum. induction l as [|ch l IH]; intros accum;
    [reflexivity|].
  cbn [reveal existsb]. now rewrite Hp, Hs, IH.
Qed.

Lemma existsb_finish (p : Event -> bool) (r : Run World unit) :
  (forall e, p (st_exception e) = false) ->
  existsb p (events (finish r)) = existsb p (events r).
Proof.
  intros Hp. unfold finish. destruct (result r) as [|[| |e]]; try reflexivity.
  proj. rewrite existsb_app. cbn [existsb]. rewrite Hp.
  now rewrite !orb_false_r.
Qed.

(** Evaluates a search through the events of a script case. *)
Ltac search_events :=
  proj;
  repeat first
    [ rewrite existsb_app
    | rewrite existsb_bubbles by reflexivity
    | rewrite existsb_reveal by reflexivity
    | progress cbn [existsb is_download_button is_model_request
                    is_answer orb] ].

Lemma filter_bubbles (p : Event -> bool) (l : list BaseMessage) :
  (forall name body, p (st_chat_message name body) = false) ->
  filter p (map bubble l) = [].
Proof.
  intros Hp. induction l as [|msg l IH]; [reflexivity|].
  cbn [map filter]. rewrite IH. unfold bubble.
  destruct (type msg =? "human")%string; now rewrite Hp.
Qed.

Lemma filter_reveal (p : Event -> bool) (l : list string) (accum : string) :
  (forall body, p (placeholder_markdown body) = false) ->
  p time_sleep = false ->
  filter p (reveal accum l) = [].
Proof.
  intros Hp Hs. revert accum. induction l as [|ch l IH]; intros accum;
    [reflexivity|].
  cbn [reveal filter]. now rewrite Hp, Hs, IH.
Qed.

Lemma filter_finish (p : Event -> bool) (r : Run World unit) :
  (forall e, p (st_exception e) = false) ->
  filter p (events (finish r)) = filter p (events r).
Proof.
  intros Hp. unfold finish. destruct (result r) as [|[| |e]]; try reflexivity.
  proj. rewrite filter_app. cbn [filter]. rewrite Hp. apply app_nil_r.
Qed.

(** Evaluates the model requests among the events of a script case. *)
Ltac requests_of_events :=
  proj;
  repeat first
    [ rewrite filter_app
    | rewrite filter_bubbles by reflexivity
    | rewrite filter_reveal by reflexivity
    | progress cbn [filter is_model_request app] ].

Lemma same_class_refl (c : MemoryClass) : same_class c c.
Proof. now destruct c. Qed.

(** ** The download button *)

Lemma script_download (i : Inputs) (s : SessionState) (w : World) :
  clear_chat i = false ->
  existsb is_download_button (events (script i s w)) = true ->
  stored_messages (session_after (script i s w)) <> [].
Proof.
  intros Hc. destruct (truthy (GROQ_API_KEY i)) eqn:Hk.
  2:{ rewrite (script_no_key i s w Hc Hk). discriminate. }
  destruct (system_template (system_prompt i)) as [render|] eqn:Ht.
  2:{ rewrite (script_no_chain i s w Hc Hk Ht). discriminate. }
  destruct (memory (session_after (initialize_memory i (window_k_of i) s w)))
    as [m|] eqn:Hm.
  2:{ rewrite (script_no_memory i s w render Hc Hk Ht Hm). discriminate. }
  assert (Hidle :
    match user_input i with Some u => truthy u | None => false end = false ->
    existsb is_download_button (events (script i s w)) = true ->
    stored_messages (session_after (script i s w)) <> []).
  { intros Hu. rewrite (script_idle i s w render m Hc Hk Ht Hu Hm).
    search_events. unfold stored_messages. rewrite Hm.
    destruct (chat_memory m); [discriminate | intros _; discriminate]. }
  destruct (user_input i) as [u|] eqn:Hu; [|now apply Hidle].
  destruct (truthy u) eqn:Hu'; [|now apply Hidle].
  rewrite (script_turn i s w render u m Hc Hk Ht Hu Hu' Hm).
  turn_cases m; search_events; try discriminate; intros _;
    unfold stored_messages; cbn [memory chat_memory];
    destruct (chat_memory m); discriminate.
Qed.

(** The button is drawn only by a run that ends with a stored message. *)
Lemma run_download (i : Inputs) (s : SessionState) (w : World) :
  existsb is_download_button (events (run i s w)) = true ->
  stored_messages (session_after (run i s w)) <> [].
Proof.
  destruct (clear_chat i) eqn:Hc.
  - rewrite (run_clear i s w Hc). cbv zeta. proj. cbn [existsb is_download_button orb].
    rewrite existsb_finish, finish_session by reflexivity.
    now apply script_download.
  - rewrite (run_no_clear i s w Hc).
    rewrite existsb_finish, finish_session by reflexivity.
    now apply script_download.
Qed.

Lemma clear_empty (m : Memory) : chat_memory (clear m) = [].
Proof. unfold clear. now destruct (cls m). Qed.

(** ** Sequences of turns *)

Lemma exchanges_app (a b : list BaseMessage) :
  exchanges a = true -> exchanges b = true -> exchanges (a ++ b) = true.
Proof.
  intros Ha Hb. remember (length a) as n eqn:Hn.
  assert (Hle : (length a <= n)%nat) by lia. clear Hn.
  revert a Ha Hle. induction n as [|n IH]; intros a Ha Hle.
  - destruct a; [exact Hb | simpl in Hle; lia].
  - destruct a as [|[t|t|t] [|[t'|t'|t'] a]]; simpl in Ha;
      try discriminate Ha; [exact Hb|].
    simpl. apply IH; [exact Ha | simpl in Hle; lia].
Qed.

Lemma same_class_trans (a b c : MemoryClass) :
  same_class a b -> same_class b c -> same_class a c.
Proof. destruct a, b, c; simpl; try tauto; congruence. Qed.

Lemma same_class_summary (a b : MemoryClass) :
  same_class a b -> is_summary a = is_summary b.
Proof. destruct a, b; simpl; tauto. Qed.

Lemma session_at_end_cons (s : SessionState) (r : Run World unit)
  (runs : list (Run World unit)) :
  session_at_end s (r :: runs) = session_at_end (session_after r) runs.
Proof.
  unfold session_at_end. cbn [map].
  generalize (session_after r) as a, (map session_after runs) as l.
  intros a l. revert a s. induction l as [|b l IH]; intros a d; [reflexivity|].
  change (last (a :: b :: l) d) with (last (b :: l) d).
  now rewrite !IH.
Qed.

(** One turn against an unchanged configuration: the memory object keeps its
    class, and its list grows by one exchange exactly when the completion
    call answered. *)
Lemma run_turn_step (key : string) (i : Inputs) (s : SessionState)
  (w : World) (m : Memory) :
  turn_input key i -> _mem_config s = Some key -> memory s = Some m ->
  let r := run i s w in
  exists m' added,
    _mem_config (session_after r) = Some key
    /\ memory (session_after r) = Some m'
    /\ same_class (cls m') (cls m)
    /\ chat_memory m' = chat_memory m ++ added
    /\ exchanges added = true
    /\ length added = (if answered r then 2 else 0)%nat
    /\ (succeeded r = true -> answered r = true)
    /\ (is_summary (cls m) = false -> succeeded r = answered r).
Proof.
  intros (Hc & Hkey & u & Hu & Hu') Hcfg Hm r. subst key.
  assert (Hs1 : session_after (initialize_memory i (window_k_of i) s w) = s)
    by now apply initialize_memory_same_key.
  assert (Hstay : session_after r = s -> answered r = false ->
                  succeeded r = false ->
    exists m' added,
      _mem_config (session_after r)
      = Some (mem_key (memory_type i) (window_k_of i))
      /\ memory (session_after r) = Some m'
      /\ same_class (cls m') (cls m)
      /\ chat_memory m' = chat_memory m ++ added
      /\ exchanges added = true
      /\ length added = (if answered r then 2 else 0)%nat
      /\ (succeeded r = true -> answered r = true)
      /\ (is_summary (cls m) = false -> succeeded r = answered r)).
  { intros -> -> ->. exists m, []. rewrite app_nil_r.
    repeat split; try assumption; try discriminate; try reflexivity.
    apply same_class_refl. }
  unfold r, answered, succeeded in *. clear r.
  rewrite (run_no_clear i s w Hc) in *.
  rewrite existsb_finish, finish_session, finish_result in * by reflexivity.
  destruct (truthy (GROQ_API_KEY i)) eqn:Hk.
  2:{ rewrite (script_no_key i s w Hc Hk) in *. now apply Hstay. }
  destruct (system_template (system_prompt i)) as [render|] eqn:Ht.
  2:{ rewrite (script_no_chain i s w Hc Hk Ht) in *. rewrite Hs1 in *.
      now apply Hstay. }
  assert (Hm1 : memory (session_after
                          (initialize_memory i (window_k_of i) s w)) = Some m)
    by (now rewrite Hs1).
  rewrite (script_turn i s w render u m Hc Hk Ht Hu Hu' Hm1) in *.
  rewrite Hs1 in *. revert Hstay.
  turn_cases m; search_events; intros Hstay;
    try (apply Hstay; reflexivity); clear Hstay;
    eexists; exists [HumanMessage u; AIMessage r];
    cbn [memory _mem_config cls chat_memory is_summary];
    (split; [exact Hcfg|]); (split; [reflexivity|]);
    (split; [cbn [same_class]; first [exact I | reflexivity]|]);
    repeat split; try reflexivity; try discriminate.
Qed.

(** Any number of turns against an unchanged configuration. *)
Lemma run_all_turns (key : string) (turns : list Inputs) :
  forall (s : SessionState) (w : World) (m : Memory),
    Forall (turn_input key) turns ->
    _mem_config s = Some key -> memory s = Some m ->
    let runs := run_all turns s w in
    exists m' added,
      memory (session_at_end s runs) = Some m'
      /\ same_class (cls m') (cls m)
      /\ chat_memory m' = chat_memory m ++ added
      /\ exchanges added = true
      /\ length added = (2 * length (filter answered runs))%nat
      /\ (length (filter succeeded runs) <= length (filter answered runs))%nat
      /\ (is_summary (cls m) = false ->
          length (filter succeeded runs) = length (filter answered runs)).
Proof.
  induction turns as [|i turns IH]; intros s w m Hall Hcfg Hm runs.
  - exists m, []. rewrite app_nil_r. unfold runs, session_at_end. cbn.
    repeat split; auto. apply same_class_refl.
  - inversion Hall as [|? ? Hi Hrest]; subst.
    destruct (run_turn_step key i s w m Hi Hcfg Hm)
      as (m1 & added1 & Hcfg1 & Hm1 & Hcls1 & Hlist1 & Hex1 & Hlen1 & Hsa1
          & Hplain1).
    destruct (IH (session_after (run i s w)) (world_after (run i s w)) m1
                Hrest Hcfg1 Hm1)
      as (m2 & added2 & Hm2 & Hcls2 & Hlist2 & Hex2 & Hlen2 & Hle2 & Hplain2).
    exists m2, (added1 ++ added2). unfold runs. cbn [run_all].
    rewrite session_at_end_cons. cbn [filter].
    split; [exact Hm2|]. split; [eapply same_class_trans; eassumption|].
    split; [now rewrite Hlist2, Hlist1, app_assoc|].
    split; [now apply exchanges_app|].
    rewrite length_app, Hlen1, Hlen2.
    rewrite (same_class_summary _ _ Hcls1) in Hplain2.
    destruct (succeeded (run i s w)) eqn:Hs, (answered (run i s w)) eqn:Ha;
      cbn [length]; repeat split; try lia;
      try (specialize (Hsa1 eq_refl); discriminate Hsa1);
      intros Hp; try (specialize (Hplain1 Hp); discriminate Hplain1);
      specialize (Hplain2 Hp); lia.
Qed.

(** ** Reachable session states *)

Lemma clear_same_class (m : Memory) : same_class (cls (clear m)) (cls m).
Proof. unfold clear. destruct (cls m); simpl; auto. Qed.

Lemma coherent_update (s : SessionState) (m m' : Memory) :
  coherent s -> memory s = Some m -> same_class (cls m') (cls m) ->
  coherent {| memory := Some m'; _mem_config := _mem_config s |}.
Proof.
  unfold coherent. intros H Hm Hcls. cbn [memory _mem_config].
  rewrite Hm in H. destruct (_mem_config s) as [key|]; [|exact H].
  destruct H as (i & Hkey & Hnew). exists i. split; [exact Hkey|].
  eapply same_class_trans; eassumption.
Qed.

Lemma coherent_cleared (s : SessionState) : coherent s -> coherent (cleared s).
Proof.
  intros H. unfold cleared. destruct (memory s) as [m|] eqn:Hm; [|exact H].
  eapply coherent_update; [exact H | exact Hm | apply clear_same_class].
Qed.

Lemma coherent_initialize (i : Inputs) (s : SessionState) (w : World) :
  coherent s ->
  coherent (session_after (initialize_memory i (window_k_of i) s w)).
Proof.
  intros H. rewrite initialize_memory_session.
  destruct (match _mem_config s with
            | Some recorded => _
            | None => false
            end); [exact H|].
  unfold coherent. cbn [memory _mem_config]. exists i.
  split; [reflexivity | apply same_class_refl].
Qed.

Lemma coherent_script (i : Inputs) (s : SessionState) (w : World) :
  clear_chat i = false -> coherent s -> coherent (session_after (script i s w)).
Proof.
  intros Hc H. destruct (truthy (GROQ_API_KEY i)) eqn:Hk.
  2:{ now rewrite (script_no_key i s w Hc Hk). }
  pose proof (coherent_initialize i s w H) as H1.
  destruct (system_template (system_prompt i)) as [render|] eqn:Ht.
  2:{ now rewrite (script_no_chain i s w Hc Hk Ht). }
  destruct (memory (session_after (initialize_memory i (window_k_of i) s w)))
    as [m|] eqn:Hm.
  2:{ now rewrite (script_no_memory i s w render Hc Hk Ht Hm). }
  assert (Hidle :
    match user_input i with Some u => truthy u | None => false end = false ->
    coherent (session_after (script i s w))).
  { intros Hu. now rewrite (script_idle i s w render m Hc Hk Ht Hu Hm). }
  destruct (user_input i) as [u|] eqn:Hu; [|now apply Hidle].
  destruct (truthy u) eqn:Hu'; [|now apply Hidle].
  rewrite (script_turn i s w render u m Hc Hk Ht Hu Hu' Hm).
  turn_cases m; proj; try exact H1;
    (eapply coherent_update; [exact H1 | exact Hm |]);
    cbn [cls]; rewrite Hcls; cbn [same_class]; auto.
Qed.

Lemma coherent_run (i : Inputs) (s : SessionState) (w : World) :
  coherent s -> coherent (session_after (run i s w)).
Proof.
  intros H. destruct (clear_chat i) eqn:Hc.
  - rewrite (run_clear i s w Hc). cbv zeta. proj. rewrite finish_session.
    apply coherent_script; [reflexivity | now apply coherent_cleared].
  - rewrite (run_no_clear i s w Hc), finish_session.
    now apply coherent_script.
Qed.

(** Every reachable session state is coherent. *)
Lemma reachable_coherent (s : SessionState) : reachable s -> coherent s.
Proof.
  induction 1 as [|i s w _ IH]; [exact I | now apply coherent_run].
Qed.

(** Every reachable session state stores whole exchanges only. *)
Lemma exchanges_script (i : Inputs) (s : SessionState) (w : World) :
  clear_chat i = false ->
  exchanges (stored_messages s) = true ->
  exchanges (stored_messages (session_after (script i s w))) = true.
Proof.
  intros Hc H. destruct (truthy (GROQ_API_KEY i)) eqn:Hk.
  2:{ now rewrite (script_no_key i s w Hc Hk). }
  assert (H1 : exchanges (stored_messages
                 (session_after (initialize_memory i (window_k_of i) s w)))
               = true).
  { rewrite initialize_memory_session.
    destruct (match _mem_config s with
              | Some recorded => _
              | None => false
              end); [exact H|].
    unfold stored_messages. cbn [memory]. now rewrite new_memory_empty. }
  destruct (system_template (system_prompt i)) as [render|] eqn:Ht.
  2:{ now rewrite (script_no_chain i s w Hc Hk Ht). }
  destruct (memory (session_after (initialize_memory i (window_k_of i) s w)))
    as [m|] eqn:Hm.
  2:{ now rewrite (script_no_memory i s w render Hc Hk Ht Hm). }
  assert (Hidle :
    match user_input i with Some u => truthy u | None => false end = false ->
    exchanges (stored_messages (session_after (script i s w))) = true).
  { intros Hu. now rewrite (script_idle i s w render m Hc Hk Ht Hu Hm). }
  destruct (user_input i) as [u|] eqn:Hu; [|now apply Hidle].
  destruct (truthy u) eqn:Hu'; [|now apply Hidle].
  rewrite (script_turn i s w render u m Hc Hk Ht Hu Hu' Hm).
  unfold stored_messages in H1. rewrite Hm in H1.
  turn_cases m; proj; unfold stored_messages; cbn [memory chat_memory];
    try (now apply exchanges_app); now rewrite Hm.
Qed.

Lemma reachable_exchanges (s : SessionState) :
  reachable s -> exchanges (stored_messages s) = true.
Proof.
  induction 1 as [|i s w _ IH]; [reflexivity|].
  destruct (clear_chat i) eqn:Hc.
  - rewrite (run_clear i s w Hc). cbv zeta. proj. rewrite finish_session.
    apply exchanges_script; [reflexivity|].
    unfold cleared. destruct (memory s) as [m|] eqn:Hm; [|exact IH].
    unfold stored_messages. cbn [memory]. now rewrite clear_empty.
  - rewrite (run_no_clear i s w Hc), finish_session.
    now apply exchanges_script.
Qed.

(** The labels of the transcript of a reachable session are [HUMAN] and
    [AI]. *)
Lemma exchanges_labels (l : list BaseMessage) :
  exchanges l = true ->
  Forall (fun m => history_line m = ("HUMAN: " ++ content m)%string
                   \/ history_line m = ("AI: " ++ content m)%string) l.
Proof.
  remember (length l) as n eqn:Hn.
  assert (Hle : (length l <= n)%nat) by lia. clear Hn.
  revert l Hle. induction n as [|n IH]; intros l Hle H.
  - destruct l; [constructor | simpl in Hle; lia].
  - destruct l as [|[t|t|t] [|[t'|t'|t'] l]]; simpl in H;
      try discriminate H; [constructor|].
    constructor; [now left|]. constructor; [now right|].
    apply IH; [simpl in Hle; lia | exact H].
Qed.

Lemma reachable_labels (s : SessionState) :
  reachable s ->
  Forall (fun m => history_line m = ("HUMAN: " ++ content m)%string
                   \/ history_line m = ("AI: " ++ content m)%string)
    (stored_messages s).
Proof. intros H. now apply exchanges_labels, reachable_exchanges. Qed.

(** ** Prompts *)

Lemma prompts_app (a b : list Event) : prompts (a ++ b) = prompts a ++ prompts b.
Proof.
  induction a as [|e a IH]; [reflexivity|].
  simpl. destruct (prompt_of e); simpl; now rewrite IH.
Qed.

Lemma prompts_bubbles (l : list BaseMessage) : prompts (map bubble l) = [].
Proof.
  induction l as [|msg l IH]; [reflexivity|].
  cbn [map prompts]. unfold bubble at 1.
  destruct (type msg =? "human")%string; exact IH.
Qed.

Lemma prompts_reveal (l : list string) (accum : string) :
  prompts (reveal accum l) = [].
Proof.
  revert accum. induction l as [|ch l IH]; intros accum; [reflexivity|].
  cbn [reveal prompts prompt_of]. apply IH.
Qed.

Lemma prompts_finish (r : Run World unit) :
  prompts (events (finish r)) = prompts (events r).
Proof.
  unfold finish. destruct (result r) as [|[| |e]]; try reflexivity.
  proj. rewrite prompts_app. apply app_nil_r.
Qed.

Lemma length_lastn {A : Type} (n : nat) (l : list A) :
  length (lastn n l) = Nat.min n (length l).
Proof. unfold lastn. rewrite length_skipn. lia. Qed.

Lemma lastn_suffix {A : Type} (n : nat) (l : list A) :
  l = firstn (length l - n) l ++ lastn n l.
Proof. unfold lastn. now rewrite firstn_skipn. Qed.

(** ** Claims *)

(** C1 (amended).  The memory object is keyed by the configuration: the key
    names the strategy and, under the window strategy, the value of the
    window slider, and nothing else distinguishes two keys.  The selector
    always ends with the requested key recorded; when the recorded key
    differs from the requested one (or none is recorded) the session holds a
    newly constructed memory with an empty message list, whatever it held
    before; when the key is unchanged the session, memory object included,
    is untouched.  The selector is run by the reruns that get past the key
    check: such a rerun ends with the requested key recorded; if the key has
    changed it ends with an empty message list, or with the one exchange of
    the message typed in it; if the key has not changed and nothing is typed
    it ends, the button apart, with the session as it was.  A rerun with no
    API key entered stops before the selector: the recorded key stays, and
    so does the memory object (emptied if the button was pressed), whatever
    the requested configuration. *)
Theorem C1_memory_keyed_by_configuration
  (i : Inputs) (s : SessionState) (w : World) :
  let key := mem_key (memory_type i) (window_k_of i) in
  let r := initialize_memory i (window_k_of i) s w in
  (forall i', mem_key (memory_type i') (window_k_of i') = key
              <-> memory_type i' = memory_type i
                  /\ (memory_type i = "Window (last N)" ->
                      window_slider i' = window_slider i))
  /\ result r = Ok tt
  /\ _mem_config (session_after r) = Some key
  /\ (_mem_config s <> Some key ->
      memory (session_after r) = Some (new_memory i (window_k_of i))
      /\ stored_messages (session_after r) = [])
  /\ (_mem_config s = Some key -> session_after r = s)
  /\ (truthy (GROQ_API_KEY i) = true ->
      _mem_config (session_after (run i s w)) = Some key)
  /\ (truthy (GROQ_API_KEY i) = true -> user_input i = None ->
      _mem_config s <> Some key ->
      stored_messages (session_after (run i s w)) = [])
  /\ (truthy (GROQ_API_KEY i) = true -> _mem_config s <> Some key ->
      stored_messages (session_after (run i s w)) = []
      \/ exists u answer,
           user_input i = Some u /\ clear_chat i = false
           /\ stored_messages (session_after (run i s w))
              = [HumanMessage u; AIMessage answer])
  /\ (truthy (GROQ_API_KEY i) = true -> user_input i = None ->
      clear_chat i = false -> _mem_config s = Some key ->
      session_after (run i s w) = s)
  /\ (truthy (GROQ_API_KEY i) = false ->
      result (run i s w) = Abort Stop
      /\ _mem_config (session_after (run i s w)) = _mem_config s
      /\ session_after (run i s w) = if clear_chat i then cleared s else s).
Proof.
  intros key r.
  split; [|split; [|split; [|split; [|split; [|split; [|split;
    [|split; [|split]]]]]]]].
  - intros i'. unfold key. split.
    + intros H. apply mem_key_inj in H. destruct H as [Ht Hw]. split;
        [exact Ht|].
      intros Hwin. unfold window_k_of in Hw. rewrite Ht, Hwin in Hw.
      cbn in Hw. congruence.
    + intros [Ht Hw]. unfold window_k_of. rewrite Ht.
      destruct (String.eqb_spec (memory_type i) "Window (last N)") as [E|];
        [now rewrite (Hw E) | reflexivity].
  - unfold r. now rewrite initialize_memory_run.
  - apply initialize_memory_key.
  - intros H. unfold r, stored_messages.
    rewrite (initialize_memory_other_key i s w H). cbn [memory].
    split; [reflexivity | apply new_memory_empty].
  - intros H. now apply initialize_memory_same_key.
  - apply run_records_key.
  - apply run_switch_empty.
  - apply run_switch_stored.
  - intros Hk Hu Hc Hkey. rewrite (run_idle_session i s w Hc Hk)
      by (now rewrite Hu).
    now apply initialize_memory_same_key.
  - intros Hk. destruct (clear_chat i) eqn:Hc.
    + rewrite (run_clear i s w Hc). cbv zeta.
      rewrite (script_no_key (at_rest i) (cleared s) w eq_refl Hk). proj.
      repeat split. apply cleared_key.
    + rewrite (run_no_clear i s w Hc), (script_no_key i s w Hc Hk).
      cbn. repeat split.
Qed.

(** C10.  Pressing [Clear Chat] while the session holds no memory object
    raises nothing and changes nothing: the script reaches [st.rerun()]
    having only drawn the confirmation, with the session state and the world
    as they were; and while no key is entered, the rerun it starts stops at
    the key check with the session state still unchanged. *)
Theorem C10_clear_without_memory (i : Inputs) (s : SessionState) (w : World) :
  memory s = None -> clear_chat i = true ->
  script i s w
  = {| result := Abort Rerun; session_after := s; world_after := w;
       events := [st_success "Chat history cleared!"] |}
  /\ (truthy (GROQ_API_KEY i) = false ->
      result (run i s w) = Abort Stop /\ session_after (run i s w) = s).
Proof.
  intros Hm Hc.
  assert (Hs : cleared s = s) by (unfold cleared; now rewrite Hm).
  split.
  - rewrite (script_clear i s w Hc). now rewrite Hs.
  - intros Hk. rewrite (run_clear i s w Hc). cbv zeta. proj.
    rewrite Hs, (script_no_key (at_rest i) s w eq_refl Hk). now split.
Qed.

(** C6 (amended).  With no key entered the run stops at the key check: the
    warning is drawn, the run ends in [st.stop()], no call reaches the model
    and the world is untouched, and the session state is changed by nothing
    but the [Clear Chat] button.  A key that is entered is checked nowhere:
    the run never stops at the key check; in a turn the completion call is
    made on a client holding the key as entered, whatever the key is; and
    when the service turns the call down, that exception ends the run and is
    displayed, the one call having been made. *)
Theorem C6_missing_key_stops (i : Inputs) (s : SessionState) (w : World) :
  let warning :=
    st_warning
      "⚠️ Please enter your Groq API key in the sidebar to start chatting." in
  (truthy (GROQ_API_KEY i) = false ->
   result (run i s w) = Abort Stop
   /\ In warning (events (run i s w))
   /\ existsb is_model_request (events (run i s w)) = false
   /\ world_after (run i s w) = w
   /\ session_after (run i s w) = if clear_chat i then cleared s else s)
  /\ (truthy (GROQ_API_KEY i) = true ->
      result (run i s w) <> Abort Stop
      /\ forall render u m,
           clear_chat i = false ->
           system_template (system_prompt i) = Some render ->
           user_input i = Some u -> truthy u = true ->
           memory (session_after (initialize_memory i (window_k_of i) s w))
           = Some m ->
           let req := chat_completion (build_llm i)
                        (format_messages render (load_memory_variables m) u) in
           llm_api_key (build_llm i) = GROQ_API_KEY i
           /\ In (llm_invoke req (fst (groq w req))) (events (run i s w))
           /\ forall e w1,
                groq w req = (Failure e, w1) ->
                result (run i s w) = Abort (Raise e)
                /\ last (events (run i s w)) warning = st_exception e
                /\ filter is_model_request (events (run i s w))
                   = [llm_invoke req (Failure e)]
                /\ world_after (run i s w) = w1).
Proof.
  intros warning. split.
  - intros Hk. destruct (clear_chat i) eqn:Hc.
    + rewrite (run_clear i s w Hc). cbv zeta.
      rewrite (script_no_key (at_rest i) (cleared s) w eq_refl Hk).
      cbn. tauto.
    + rewrite (run_no_clear i s w Hc), (script_no_key i s w Hc Hk).
      cbn. tauto.
  - intros Hk. split.
    + apply run_not_stop. exact Hk.
    + intros render u m Hc Ht Hu Hu' Hm req.
      split; [reflexivity|].
      rewrite (run_no_clear i s w Hc).
      rewrite (script_turn i s w render u m Hc Hk Ht Hu Hu' Hm).
      cbv zeta. fold req. split.
      * destruct (groq w req) as [[text|e] w1] eqn:G; cbn [fst].
        -- destruct (cls m) as [|llm buffer|k] eqn:Hcls;
             [ | destruct (groq w1 (summarize llm buffer
                                      [HumanMessage u; AIMessage text]))
                   as [[summary|e] w2] eqn:G2 | ];
             unfold finish; proj; rewrite ?in_app_iff; cbn [In]; tauto.
        -- unfold finish; proj; rewrite ?in_app_iff; cbn [In]; tauto.
      * intros e w1 G. rewrite G. unfold finish. proj.
        split; [reflexivity|]. split; [apply last_last|].
        split; [|reflexivity].
        requests_of_events. reflexivity.
Qed.

(** C7.  Pressing [Clear Chat] on a session whose memory holds messages
    leaves an empty message list, at once and at the end of the rerun it
    starts, and no download button is drawn; in general a run draws the
    download button only when it ends with a non-empty message list. *)
Theorem C7_clear_chat_empties (i : Inputs) (s : SessionState) (w : World)
  (m : Memory) :
  memory s = Some m -> chat_memory m <> [] -> clear_chat i = true ->
  stored_messages (session_after (script i s w)) = []
  /\ stored_messages (session_after (run i s w)) = []
  /\ existsb is_download_button (events (run i s w)) = false
  /\ (forall i' s' w',
        existsb is_download_button (events (run i' s' w')) = true ->
        stored_messages (session_after (run i' s' w')) <> []).
Proof.
  intros Hm Hne Hc.
  assert (Hcl : stored_messages (cleared s) = []).
  { unfold cleared, stored_messages. rewrite Hm. apply clear_empty. }
  assert (Hrun : stored_messages (session_after (run i s w)) = []).
  { rewrite (run_clear i s w Hc). cbv zeta. proj. rewrite finish_session.
    destruct (truthy (GROQ_API_KEY i)) eqn:Hk.
    - rewrite (script_idle_session (at_rest i) (cleared s) w eq_refl Hk eq_refl).
      rewrite initialize_memory_session.
      destruct (match _mem_config (cleared s) with
                | Some recorded => _
                | None => false
                end); [exact Hcl|].
      unfold stored_messages. cbn [memory]. apply new_memory_empty.
    - now rewrite (script_no_key (at_rest i) (cleared s) w eq_refl Hk). }
  repeat split.
  - now rewrite (script_clear i s w Hc).
  - exact Hrun.
  - destruct (existsb is_download_button (events (run i s w))) eqn:E;
      [|reflexivity].
    now apply run_download in E.
  - apply run_download.
Qed.


(** C8.  In a successful turn the stored list grows by the user's message
    and one assistant message whose content is the full text the completion
    call returned; the frames of the typing animation are drawn from that
    text; and the animation, for any text and from any state, ends normally
    with the session state and the world as it found them, having only
    drawn its frames. *)
Theorem C8_reveal_is_presentation
  (i : Inputs) (s : SessionState) (w w1 : World)
  (render : list BaseMessage -> string -> string) (u r : string) (m : Memory) :
  clear_chat i = false -> truthy (GROQ_API_KEY i) = true ->
  system_template (system_prompt i) = Some render ->
  user_input i = Some u -> truthy u = true ->
  memory (session_after (initialize_memory i (window_k_of i) s w)) = Some m ->
  groq w (chat_completion (build_llm i)
            (format_messages render (load_memory_variables m) u))
  = (Completion r, w1) ->
  result (run i s w) = Ok tt ->
  stored_messages (session_after (run i s w))
  = chat_memory m ++ [HumanMessage u; AIMessage r]
  /\ (exists before after,
        events (run i s w)
        = before ++ st_chat_placeholder "assistant"
                    :: reveal "" (code_points r) ++ after)
  /\ (forall text s' w',
        typing_effect text s' w'
        = {| result := Ok tt; session_after := s'; world_after := w';
             events := st_chat_placeholder "assistant"
                       :: reveal "" (code_points text) |}).
Proof.
  intros Hc Hk Ht Hu Hu' Hm G.
  rewrite (run_no_clear i s w Hc).
  rewrite (script_turn i s w render u m Hc Hk Ht Hu Hu' Hm). cbv zeta.
  rewrite G.
  destruct (cls m) as [|llm buffer|k] eqn:Hcls;
    [ | ask_groq | ]; unfold finish; proj; intros Hres;
    try discriminate Hres;
    (split; [reflexivity | split; [|exact typing_effect_run]]).
  - do 2 eexists. apply app_assoc.
  - do 2 eexists. apply app_assoc.
  - do 2 eexists. apply app_assoc.
Qed.

(** C9.  The key is computed from the strategy name and the window size
    alone, so a rerun whose strategy and window size are those of the
    recorded key keeps the session's memory object whatever the API key, the
    model, the temperature, the token limit and the system prompt now are:
    the selector leaves the session untouched; a rerun that stops at the key
    check or in which nothing is typed ends with the session unchanged;
    after any rerun the memory object has its class and construction
    parameters, and its message list extends the previous one; every
    summary update issued during the rerun goes to the client held by the
    summary memory; and that client is built, when the memory is
    constructed, from the model name and the API key of that rerun. *)
Theorem C9_key_ignores_other_inputs
  (i0 i : Inputs) (s : SessionState) (w : World) (m : Memory) :
  memory_type i = memory_type i0 -> window_k_of i = window_k_of i0 ->
  _mem_config s = Some (mem_key (memory_type i0) (window_k_of i0)) ->
  memory s = Some m -> clear_chat i = false ->
  let r := run i s w in
  session_after (initialize_memory i (window_k_of i) s w) = s
  /\ (truthy (GROQ_API_KEY i) = false
      \/ match user_input i with Some u => truthy u | None => false end
         = false ->
      session_after r = s)
  /\ _mem_config (session_after r) = _mem_config s
  /\ (exists m' added,
        memory (session_after r) = Some m'
        /\ same_class (cls m') (cls m)
        /\ chat_memory m' = chat_memory m ++ added)
  /\ (forall llm buffer, cls m = ConversationSummaryMemory llm buffer ->
      forall llm' summary lines resp,
        In (llm_invoke (summarize llm' summary lines) resp) (events r) ->
        llm' = llm)
  /\ (memory_type i0 = "Summary (long chats)" ->
      cls (new_memory i0 (window_k_of i0))
      = ConversationSummaryMemory
          {| llm_model_name := model_name i0; llm_temperature := 0%Q;
             llm_max_tokens := None; llm_api_key := GROQ_API_KEY i0 |} "").
Proof.
  intros Hmt Hwk Hcfg Hm Hc r.
  assert (Hs1 : session_after (initialize_memory i (window_k_of i) s w) = s).
  { apply initialize_memory_same_key. now rewrite Hmt, Hwk. }
  split; [exact Hs1|].
  cut ((truthy (GROQ_API_KEY i) = false
        \/ match user_input i with Some u => truthy u | None => false end
           = false ->
        session_after r = s)
       /\ _mem_config (session_after r) = _mem_config s
       /\ (exists m' added,
             memory (session_after r) = Some m'
             /\ same_class (cls m') (cls m)
             /\ chat_memory m' = chat_memory m ++ added)
       /\ (forall llm buffer, cls m = ConversationSummaryMemory llm buffer ->
           forall llm' summary lines resp,
             In (llm_invoke (summarize llm' summary lines) resp) (events r) ->
             llm' = llm)).
  { intros (H1 & H2 & H3 & H4). repeat (split; [assumption|]).
    intros Hsum. unfold new_memory. now rewrite Hsum. }
  assert (Hkeep : session_after r = s ->
    _mem_config (session_after r) = _mem_config s
    /\ (exists m' added,
          memory (session_after r) = Some m'
          /\ same_class (cls m') (cls m)
          /\ chat_memory m' = chat_memory m ++ added)).
  { intros ->. split; [reflexivity|]. exists m, []. rewrite app_nil_r.
    repeat split; [exact Hm | apply same_class_refl]. }
  assert (Hreq : filter is_model_request (events r) = [] ->
    forall llm buffer, cls m = ConversationSummaryMemory llm buffer ->
    forall llm' summary lines resp,
      In (llm_invoke (summarize llm' summary lines) resp) (events r) ->
      llm' = llm).
  { intros Hnone llm buffer _ llm' summary lines resp Hin.
    assert (Hf : In (llm_invoke (summarize llm' summary lines) resp)
                   (filter is_model_request (events r)))
      by (apply filter_In; split; [exact Hin | reflexivity]).
    rewrite Hnone in Hf. destruct Hf. }
  unfold r in *. clear r. rewrite (run_no_clear i s w Hc) in *.
  rewrite filter_finish in Hreq by reflexivity.
  rewrite finish_session in *.
  destruct (truthy (GROQ_API_KEY i)) eqn:Hk.
  2:{ rewrite (script_no_key i s w Hc Hk) in *. proj. proj in Hkeep.
      proj in Hreq. destruct (Hkeep eq_refl) as [H1 H2].
      repeat split; auto; apply Hreq; reflexivity. }
  destruct (system_template (system_prompt i)) as [render|] eqn:Ht.
  2:{ rewrite (script_no_chain i s w Hc Hk Ht) in *. rewrite Hs1 in *.
      proj. proj in Hkeep. proj in Hreq.
      destruct (Hkeep eq_refl) as [H1 H2].
      repeat split; auto; apply Hreq; reflexivity. }
  assert (Hm1 : memory (session_after
                          (initialize_memory i (window_k_of i) s w)) = Some m)
    by (now rewrite Hs1).
  assert (Hidle :
    match user_input i with Some u => truthy u | None => false end = false ->
    (true = false
     \/ match user_input i with Some u => truthy u | None => false end = false ->
     session_after (script i s w) = s)
    /\ _mem_config (session_after (script i s w)) = _mem_config s
    /\ (exists m' added,
          memory (session_after (script i s w)) = Some m'
          /\ same_class (cls m') (cls m)
          /\ chat_memory m' = chat_memory m ++ added)
    /\ (forall llm buffer, cls m = ConversationSummaryMemory llm buffer ->
        forall llm' summary lines resp,
          In (llm_invoke (summarize llm' summary lines) resp)
             (events (finish (script i s w))) ->
          llm' = llm)).
  { intros Hu. rewrite (script_idle i s w render m Hc Hk Ht Hu Hm1) in *.
    rewrite Hs1 in *. proj. proj in Hkeep.
    destruct (Hkeep eq_refl) as [H1 H2]. repeat split; auto.
    apply Hreq. requests_of_events. now destruct (chat_memory m). }
  destruct (user_input i) as [u|] eqn:Hu; [|now apply Hidle].
  destruct (truthy u) eqn:Hu'; [|now apply Hidle].
  clear Hidle Hreq Hkeep.
  rewrite (script_turn i s w render u m Hc Hk Ht Hu Hu' Hm1). rewrite Hs1.
  split; [intros [H|H]; discriminate H|].
  turn_cases m; unfold finish; proj; cbn [memory _mem_config cls chat_memory].
  all: (split; [reflexivity|]).
  all: (split;
         [ first [ do 2 eexists; split;
                   [ reflexivity
                   | split; [ cbn [same_class cls];
                              first [exact I | reflexivity]
                            | reflexivity ] ]
                 | exists m, []; rewrite app_nil_r; split;
                   [ exact Hm
                   | split; [apply same_class_refl | reflexivity] ] ] | ]).
  all: intros llm0 buffer0 Hcls0 llm' summary lines resp Hin.
  all: pose proof (proj2 (filter_In is_model_request _ _) (conj Hin eq_refl))
         as Hf; revert Hf; requests_of_events; cbn [In app]; intros Hf.
  all: repeat (destruct Hf as [Hf|Hf]; try congruence).
  all: contradiction.
Qed.

(** C4 (amended).  The transcript is the lines [ROLE: content], one per
    stored message in order, joined by blank lines, where the role is the
    message type in upper case: [HUMAN] for the user's messages and [AI] for
    the assistant's.  Nothing is escaped, so splitting the transcript of a
    non-empty list on blank lines gives these lines back, one per message,
    provided no content contains a blank line or ends with a newline. *)
Theorem C4_history_export (messages : list BaseMessage) :
  messages <> [] ->
  Forall (fun m => splits_cleanly (content m) = true) messages ->
  split_blank (history_text messages) = map history_line messages
  /\ length (split_blank (history_text messages)) = length messages
  /\ Forall (fun m => history_line m
                      = match m with
                        | HumanMessage t => ("HUMAN: " ++ t)%string
                        | AIMessage t => ("AI: " ++ t)%string
                        | SystemMessage t => ("SYSTEM: " ++ t)%string
                        end) messages.
Proof.
  intros Hne Hall.
  assert (H : split_blank (history_text messages) = map history_line messages).
  { unfold history_text, history_lines. apply split_blank_concat.
    - destruct messages; [congruence | discriminate].
    - apply Forall_map. eapply Forall_impl; [|exact Hall].
      apply history_line_splits_cleanly. }
  split; [exact H|]. split; [now rewrite H, length_map|].
  apply Forall_forall. intros [t|t|t] _; reflexivity.
Qed.

(** C3 (amended).  Over any sequence of turns against an unchanged
    configuration the stored list grows by whole exchanges, a user's message
    followed by the assistant's, in order: its length is the initial length
    plus twice the number of turns whose completion call answered.  Under
    the keep-all and keep-last-N strategies these are exactly the turns that
    completed, so the length is the initial length plus twice the number of
    successful turns and failed turns add nothing; under the summary
    strategy the successful turns are among them. *)
Theorem C3_length_counts_answered_turns
  (key : string) (turns : list Inputs) (s : SessionState) (w : World)
  (m : Memory) :
  Forall (turn_input key) turns ->
  _mem_config s = Some key -> memory s = Some m ->
  let runs := run_all turns s w in
  let final := session_at_end s runs in
  (exists added,
     stored_messages final = chat_memory m ++ added
     /\ exchanges added = true)
  /\ length (stored_messages final)
     = (length (chat_memory m) + 2 * length (filter answered runs))%nat
  /\ (length (filter succeeded runs) <= length (filter answered runs))%nat
  /\ (is_summary (cls m) = false ->
      length (stored_messages final)
      = (length (chat_memory m) + 2 * length (filter succeeded runs))%nat).
Proof.
  intros Hall Hcfg Hm runs final.
  destruct (run_all_turns key turns s w m Hall Hcfg Hm)
    as (m' & added & Hm' & _ & Hlist & Hex & Hlen & Hle & Hplain).
  fold runs in Hm', Hlen, Hle, Hplain. fold final in Hm'.
  unfold stored_messages. rewrite Hm', Hlist, length_app, Hlen.
  split; [now exists added|]. split; [reflexivity|]. split; [exact Hle|].
  intros Hp. now rewrite (Hplain Hp).
Qed.

(** C5.  Under the keep-last-N strategy with the slider at N, in any
    reachable session the memory a turn runs against is a window memory of
    size N; the turn issues exactly one completion call, whose prompt is the
    system message, the retained context and the new input; and the retained
    context is the last 2N stored messages: a suffix of the stored list, of
    at most 2N messages (N exchanges), and of exactly 2N once more than N
    exchanges are stored. *)
Theorem C5_window_context
  (i : Inputs) (s : SessionState) (w : World)
  (render : list BaseMessage -> string -> string) (u : string) :
  reachable s ->
  memory_type i = "Window (last N)" -> 2 <= window_slider i <= 20 ->
  clear_chat i = false -> truthy (GROQ_API_KEY i) = true ->
  system_template (system_prompt i) = Some render ->
  user_input i = Some u -> truthy u = true ->
  let N := Z.to_nat (window_slider i) in
  exists m older context,
    memory (session_after (initialize_memory i (window_k_of i) s w)) = Some m
    /\ cls m = ConversationBufferWindowMemory (window_slider i)
    /\ prompts (events (run i s w))
       = [[SystemMessage (render context u)] ++ context ++ [HumanMessage u]]
    /\ context = lastn (2 * N) (chat_memory m)
    /\ chat_memory m = older ++ context
    /\ (length context <= 2 * N)%nat
    /\ ((2 * N < length (chat_memory m))%nat -> length context = (2 * N)%nat).
Proof.
  intros Hreach Hmt Hrange Hc Hk Ht Hu Hu' N.
  pose proof (coherent_initialize i s w (reachable_coherent s Hreach)) as Hcoh.
  pose proof (initialize_memory_key i s w) as Hkey.
  unfold coherent in Hcoh. rewrite Hkey in Hcoh.
  destruct (memory (session_after (initialize_memory i (window_k_of i) s w)))
    as [m|] eqn:Hm; [|contradiction].
  destruct Hcoh as (i' & Hk' & Hcls').
  apply mem_key_inj in Hk'. destruct Hk' as [Hmt' Hwk'].
  assert (Hcls : cls m = ConversationBufferWindowMemory (window_slider i)).
  { unfold new_memory in Hcls'. rewrite <- Hmt', <- Hwk' in Hcls'.
    unfold window_k_of in Hcls'. rewrite Hmt in Hcls'. simpl in Hcls'.
    destruct (Z.eqb_spec (window_slider i) 0) as [H0|_]; [lia|].
    destruct (cls m); simpl in Hcls'; try contradiction. now subst. }
  assert (Hctx : load_memory_variables m = lastn (2 * N) (chat_memory m)).
  { unfold load_memory_variables. rewrite Hcls.
    destruct (Z.ltb_spec 0 (window_slider i)) as [_|H0]; [|lia].
    f_equal. unfold N. lia. }
  exists m, (firstn (length (chat_memory m) - 2 * N) (chat_memory m)),
    (lastn (2 * N) (chat_memory m)).
  split; [reflexivity|]. split; [exact Hcls|]. split.
  - rewrite (run_no_clear i s w Hc), prompts_finish.
    rewrite (script_turn i s w render u m Hc Hk Ht Hu Hu' Hm). cbv zeta.
    rewrite Hctx, Hcls. ask_groq; proj;
      rewrite !prompts_app, prompts_bubbles; cbn [prompts prompt_of app];
      rewrite ?prompts_app, ?prompts_reveal; reflexivity.
  - split; [reflexivity|]. split; [apply lastn_suffix|].
    rewrite length_lastn. lia.
Qed.


(** ** Further properties of the script *)

(** *** The typing animation (lines 180-185) *)

Lemma concat_empty_cons (x : string) (l : list string) :
  String.concat "" (x :: l) = (x ++ String.concat "" l)%string.
Proof. destruct l; simpl; [now rewrite append_empty_r | reflexivity]. Qed.

(** The code points of a string are its bytes, cut into pieces. *)
Lemma concat_code_points (s : string) : String.concat "" (code_points s) = s.
Proof.
  induction s as [|c s IH]; [reflexivity|].
  cbn [code_points]. destruct (starts_with_continuation s).
  - destruct (code_points s) as [|chunk chunks].
    + simpl in IH. now subst s.
    + rewrite concat_empty_cons in *. simpl. now rewrite IH.
  - rewrite concat_empty_cons. simpl. now rewrite IH.
Qed.

(** Each piece is one byte followed by continuation bytes only, and every
    piece after the first begins with a byte that is not a continuation. *)
Lemma code_points_shape (s : string) :
  Forall (fun ch => match ch with
                    | EmptyString => False
                    | String _ t =>
                        forallb is_continuation (list_ascii_of_string t) = true
                    end) (code_points s)
  /\ Forall (fun ch => starts_with_continuation ch = false)
       (tl (code_points s))
  /\ (starts_with_continuation s = false ->
      Forall (fun ch => starts_with_continuation ch = false) (code_points s)).
Proof.
  induction s as [|c s (IH1 & IH2 & IH3)];
    [repeat split; intros; constructor|].
  cbn [code_points]. destruct (starts_with_continuation s) eqn:Hs.
  - destruct (code_points s) as [|chunk chunks] eqn:Hcp.
    + repeat split; intros; repeat constructor. exact H.
    + inversion IH1 as [|? ? Hchunk Hrest]; subst. cbn [tl] in *.
      assert (Hhead : starts_with_continuation chunk = true).
      { pose proof (concat_code_points s) as Hc. rewrite Hcp in Hc.
        rewrite concat_empty_cons in Hc. rewrite <- Hc in Hs.
        destruct chunk as [|d t]; [contradiction | exact Hs]. }
      repeat split.
      * constructor; [|exact Hrest].
        destruct chunk as [|d t]; [contradiction|].
        simpl in Hhead |- *. now rewrite Hhead, Hchunk.
      * exact IH2.
      * intros Hc. constructor; [exact Hc | exact IH2].
  - specialize (IH3 eq_refl). repeat split.
    + constructor; [reflexivity | exact IH1].
    + exact IH3.
    + intros Hc. constructor; [exact Hc | exact IH3].
Qed.

(** A text of ASCII characters has one code point per byte. *)
Lemma code_points_ascii (s : string) :
  forallb (fun c => (nat_of_ascii c <? 128)%nat) (list_ascii_of_string s)
  = true ->
  code_points s = map (fun c => String c "") (list_ascii_of_string s).
Proof.
  induction s as [|c s IH]; [reflexivity|].
  cbn [list_ascii_of_string forallb]. intros H.
  apply andb_true_iff in H. destruct H as [_ H].
  cbn [code_points map]. rewrite (IH H).
  destruct s as [|d s]; [reflexivity|].
  cbn [list_ascii_of_string forallb] in H. apply andb_true_iff in H.
  destruct H as [Hd _]. cbn [starts_with_continuation].
  unfold is_continuation. apply Nat.ltb_lt in Hd.
  destruct (Nat.leb_spec 128 (nat_of_ascii d)) as [Hge|_]; [lia|].
  reflexivity.
Qed.

Lemma length_list_ascii (s : string) :
  length (list_ascii_of_string s) = String.length s.
Proof. induction s as [|c s IH]; simpl; [reflexivity | now rewrite IH]. Qed.

Lemma frames_reveal (l : list string) (accum : string) :
  frames (reveal accum l)
  = map (fun n => (accum ++ String.concat "" (firstn n l))%string)
      (seq 1 (length l)).
Proof.
  revert accum. induction l as [|ch l IH]; intros accum; [reflexivity|].
  cbn [reveal frames length seq map firstn]. f_equal.
  rewrite IH, <- (seq_shift (length l) 1), map_map. apply map_ext.
  intros n. cbn [firstn]. now rewrite concat_empty_cons, append_assoc.
Qed.

(** X1.  The typing animation shows, in order, the response cut after each
    of its code points: as many frames as the text has code points, none
    for an empty text, each frame the previous one plus one whole code
    point, the last frame being the whole text; for an ASCII text that is
    one frame per character.  It ends normally and leaves the session state
    and the world as they were. *)
Theorem X1_typing_frames (text : string) (s : SessionState) (w : World) :
  let r := typing_effect text s w in
  let chars := code_points text in
  frames (events r)
  = map (fun n => String.concat "" (firstn n chars)) (seq 1 (length chars))
  /\ length (frames (events r)) = length chars
  /\ String.concat "" chars = text
  /\ Forall (fun ch => match ch with
                       | EmptyString => False
                       | String _ t =>
                           forallb is_continuation (list_ascii_of_string t)
                           = true
                       end) chars
  /\ Forall (fun ch => starts_with_continuation ch = false) (tl chars)
  /\ last (frames (events r)) "" = text
  /\ (forallb (fun c => (nat_of_ascii c <? 128)%nat)
        (list_ascii_of_string text) = true ->
      length (frames (events r)) = String.length text)
  /\ result r = Ok tt /\ session_after r = s /\ world_after r = w.
Proof.
  intros r chars. unfold r. rewrite typing_effect_run. proj. fold chars.
  assert (H : frames (st_chat_placeholder "assistant" :: reveal "" chars)
              = map (fun n => String.concat "" (firstn n chars))
                  (seq 1 (length chars))).
  { cbn [frames]. now rewrite frames_reveal. }
  rewrite H. split; [reflexivity|].
  split; [now rewrite length_map, length_seq|].
  split; [apply concat_code_points|].
  split; [apply code_points_shape|].
  split; [apply code_points_shape|].
  split; [|split; [|repeat split]].
  - pose proof (concat_code_points text) as Hc. fold chars in Hc.
    destruct (length chars) as [|n] eqn:Hn.
    + apply length_zero_iff_nil in Hn. rewrite Hn in Hc. now rewrite <- Hc.
    + rewrite seq_S, map_app. cbn [map]. rewrite last_last. cbn [Nat.add].
      rewrite <- Hn, firstn_all. exact Hc.
  - intros Hascii. rewrite length_map, length_seq. unfold chars.
    now rewrite (code_points_ascii text Hascii), length_map, length_list_ascii.
Qed.

(** *** The download button (lines 188-201) *)

Lemma downloads_app (a b : list Event) :
  downloads (a ++ b) = downloads a ++ downloads b.
Proof.
  induction a as [|e a IH]; [reflexivity|].
  destruct e; simpl; now rewrite IH.
Qed.

Lemma downloads_bubbles (l : list BaseMessage) : downloads (map bubble l) = [].
Proof.
  induction l as [|msg l IH]; [reflexivity|].
  cbn [map]. unfold bubble at 1.
  destruct (type msg =? "human")%string; exact IH.
Qed.

Lemma downloads_reveal (l : list string) (accum : string) :
  downloads (reveal accum l) = [].
Proof.
  revert accum. induction l as [|ch l IH]; intros accum; [reflexivity|].
  cbn [reveal downloads]. apply IH.
Qed.

Lemma downloads_finish (r : Run World unit) :
  downloads (events (finish r)) = downloads (events r).
Proof.
  unfold finish. destruct (result r) as [|[| |e]]; try reflexivity.
  proj. rewrite downloads_app. apply app_nil_r.
Qed.

(** Evaluates the downloads among the events of a script case. *)
Ltac downloads_of_events :=
  proj;
  repeat first
    [ rewrite downloads_app
    | rewrite downloads_bubbles
    | rewrite downloads_reveal
    | progress cbn [downloads Datatypes.app] ].

Lemma script_downloads (i : Inputs) (s : SessionState) (w : World) :
  clear_chat i = false ->
  downloads (events (script i s w))
  = match result (script i s w),
          stored_messages (session_after (script i s w)) with
    | Ok _, _ :: _ =>
        [history_text (stored_messages (session_after (script i s w)))]
    | _, _ => []
    end.
Proof.
  intros Hc. destruct (truthy (GROQ_API_KEY i)) eqn:Hk.
  2:{ now rewrite (script_no_key i s w Hc Hk). }
  destruct (system_template (system_prompt i)) as [render|] eqn:Ht.
  2:{ now rewrite (script_no_chain i s w Hc Hk Ht). }
  destruct (memory (session_after (initialize_memory i (window_k_of i) s w)))
    as [m|] eqn:Hm.
  2:{ now rewrite (script_no_memory i s w render Hc Hk Ht Hm). }
  assert (Hidle :
    match user_input i with Some u => truthy u | None => false end = false ->
    downloads (events (script i s w))
    = match result (script i s w),
            stored_messages (session_after (script i s w)) with
      | Ok _, _ :: _ =>
          [history_text (stored_messages (session_after (script i s w)))]
      | _, _ => []
      end).
  { intros Hu. rewrite (script_idle i s w render m Hc Hk Ht Hu Hm).
    downloads_of_events. unfold stored_messages. rewrite Hm.
    now destruct (chat_memory m). }
  destruct (user_input i) as [u|] eqn:Hu; [|now apply Hidle].
  destruct (truthy u) eqn:Hu'; [|now apply Hidle].
  rewrite (script_turn i s w render u m Hc Hk Ht Hu Hu' Hm).
  turn_cases m; downloads_of_events; unfold stored_messages;
    cbn [memory chat_memory]; try reflexivity;
    now destruct (chat_memory m).
Qed.

(** X3.  A run draws the download button exactly when it completes with a
    non-empty message list, and then once, offering the transcript of the
    list as the run leaves it (the exchange of the turn included); a run
    that stops at the key check or ends in an exception draws none. *)
Theorem X3_download_button (i : Inputs) (s : SessionState) (w : World) :
  downloads (events (run i s w))
  = match result (run i s w), stored_messages (session_after (run i s w)) with
    | Ok _, _ :: _ => [history_text (stored_messages (session_after (run i s w)))]
    | _, _ => []
    end.
Proof.
  destruct (clear_chat i) eqn:Hc.
  - rewrite (run_clear i s w Hc). cbv zeta. proj. cbn [downloads].
    rewrite downloads_finish, finish_result, finish_session.
    now apply script_downloads.
  - rewrite (run_no_clear i s w Hc).
    rewrite downloads_finish, finish_result, finish_session.
    now apply script_downloads.
Qed.

(** *** Reruns (lines 106-110) *)

(** X4.  The script asks for a rerun exactly when [Clear Chat] was pressed,
    and the rerun it starts does not ask for another: a run never ends in a
    pending rerun. *)
Theorem X4_rerun_only_on_clear (i : Inputs) (s : SessionState) (w : World) :
  (result (script i s w) = Abort Rerun <-> clear_chat i = true)
  /\ result (run i s w) <> Abort Rerun.
Proof.
  split; [split|].
  - intros H. destruct (clear_chat i) eqn:Hc; [reflexivity|].
    now apply script_not_rerun in H.
  - intros Hc. now rewrite (script_clear i s w Hc).
  - destruct (clear_chat i) eqn:Hc.
    + rewrite (run_clear i s w Hc). cbv zeta. proj. rewrite finish_result.
      now apply script_not_rerun.
    + rewrite (run_no_clear i s w Hc), finish_result.
      now apply script_not_rerun.
Qed.

(** *** Model requests (lines 172-177) *)

Lemma script_quiet (i : Inputs) (s : SessionState) (w : World) :
  clear_chat i = false ->
  match user_input i with Some u => truthy u | None => false end = false ->
  requests (events (script i s w)) = [] /\ world_after (script i s w) = w.
Proof.
  intros Hc Hu. unfold requests.
  destruct (truthy (GROQ_API_KEY i)) eqn:Hk.
  2:{ now rewrite (script_no_key i s w Hc Hk). }
  destruct (system_template (system_prompt i)) as [render|] eqn:Ht.
  2:{ now rewrite (script_no_chain i s w Hc Hk Ht). }
  destruct (memory (session_after (initialize_memory i (window_k_of i) s w)))
    as [m|] eqn:Hm.
  2:{ now rewrite (script_no_memory i s w render Hc Hk Ht Hm). }
  rewrite (script_idle i s w render m Hc Hk Ht Hu Hm). requests_of_events.
  split; [now destruct (chat_memory m) | reflexivity].
Qed.

Lemma finish_world (r : Run World unit) :
  world_after (finish r) = world_after r.
Proof. unfold finish. now destruct (result r) as [|[| |]]. Qed.

Lemma run_quiet (i : Inputs) (s : SessionState) (w : World) :
  clear_chat i = true
  \/ match user_input i with Some u => truthy u | None => false end = false ->
  requests (events (run i s w)) = [] /\ world_after (run i s w) = w.
Proof.
  intros H. unfold requests. destruct (clear_chat i) eqn:Hc.
  - rewrite (run_clear i s w Hc). cbv zeta. proj. cbn [filter is_model_request].
    rewrite filter_finish, finish_world by reflexivity.
    now apply (script_quiet (at_rest i)).
  - destruct H as [H|H]; [discriminate H|].
    rewrite (run_no_clear i s w Hc).
    rewrite filter_finish, finish_world by reflexivity.
    now apply script_quiet.
Qed.

(** X5.  A run in which nothing is typed, or in which [Clear Chat] was
    pressed, issues no model request and leaves the world as it was:
    changing a widget or clearing the chat costs no call. *)
Theorem X5_no_input_no_request (i : Inputs) (s : SessionState) (w : World) :
  clear_chat i = true
  \/ match user_input i with Some u => truthy u | None => false end = false ->
  requests (events (run i s w)) = [] /\ world_after (run i s w) = w.
Proof.
  intros H. unfold requests. destruct (clear_chat i) eqn:Hc.
  - rewrite (run_clear i s w Hc). cbv zeta. proj. cbn [filter is_model_request].
    rewrite filter_finish, finish_world by reflexivity.
    now apply (script_quiet (at_rest i)).
  - destruct H as [H|H]; [discriminate H|].
    rewrite (run_no_clear i s w Hc).
    rewrite filter_finish, finish_world by reflexivity.
    now apply script_quiet.
Qed.

Lemma new_memory_summary (i : Inputs) (wk : option Z) :
  is_summary (cls (new_memory i wk))
  = (memory_type i =? "Summary (long chats)")%string.
Proof.
  unfold new_memory.
  destruct (String.eqb_spec (memory_type i) "Buffer (all)") as [->|_];
    [reflexivity|].
  destruct (memory_type i =? "Summary (long chats)")%string; [reflexivity|].
  now destruct (memory_type i =? "Window (last N)")%string.
Qed.

(** In a reachable session the selector leaves a memory object of the class
    the requested configuration constructs. *)
Lemma selector_class (i : Inputs) (s : SessionState) (w : World) :
  reachable s ->
  exists m i',
    memory (session_after (initialize_memory i (window_k_of i) s w)) = Some m
    /\ memory_type i' = memory_type i
    /\ window_k_of i' = window_k_of i
    /\ same_class (cls m) (cls (new_memory i' (window_k_of i'))).
Proof.
  intros Hreach.
  pose proof (coherent_initialize i s w (reachable_coherent s Hreach)) as Hcoh.
  pose proof (initialize_memory_key i s w) as Hkey.
  unfold coherent in Hcoh. rewrite Hkey in Hcoh.
  destruct (memory (session_after (initialize_memory i (window_k_of i) s w)))
    as [m|]; [|contradiction].
  destruct Hcoh as (i' & Hk' & Hcls'). apply mem_key_inj in Hk'.
  destruct Hk' as [Hmt Hwk]. exists m, i'. now repeat split.
Qed.

Lemma selector_summary (i : Inputs) (s : SessionState) (w : World)
  (m : Memory) :
  reachable s ->
  memory (session_after (initialize_memory i (window_k_of i) s w)) = Some m ->
  is_summary (cls m) = (memory_type i =? "Summary (long chats)")%string.
Proof.
  intros Hreach Hm.
  destruct (selector_class i s w Hreach) as (m' & i' & Hm' & Hmt & _ & Hcls).
  rewrite Hm in Hm'. injection Hm' as <-.
  now rewrite (same_class_summary _ _ Hcls), new_memory_summary, Hmt.
Qed.

Lemma script_requests (i : Inputs) (s : SessionState) (w : World) :
  clear_chat i = false ->
  (length (requests (events (script i s w))) <= 2)%nat
  /\ (reachable s -> memory_type i <> "Summary (long chats)" ->
      (length (requests (events (script i s w))) <= 1)%nat).
Proof.
  intros Hc.
  assert (Hnone : requests (events (script i s w)) = [] ->
    (length (requests (events (script i s w))) <= 2)%nat
    /\ (reachable s -> memory_type i <> "Summary (long chats)" ->
        (length (requests (events (script i s w))) <= 1)%nat)).
  { intros ->. simpl. split; intros; lia. }
  destruct (user_input i) as [u|] eqn:Hu.
  2:{ apply Hnone, script_quiet; [exact Hc | now rewrite Hu]. }
  destruct (truthy u) eqn:Hu'.
  2:{ apply Hnone, script_quiet; [exact Hc | now rewrite Hu]. }
  unfold requests in *.
  destruct (truthy (GROQ_API_KEY i)) eqn:Hk.
  2:{ apply Hnone. now rewrite (script_no_key i s w Hc Hk). }
  destruct (system_template (system_prompt i)) as [render|] eqn:Ht.
  2:{ apply Hnone. now rewrite (script_no_chain i s w Hc Hk Ht). }
  destruct (memory (session_after (initialize_memory i (window_k_of i) s w)))
    as [m|] eqn:Hm.
  2:{ apply Hnone. now rewrite (script_no_memory i s w render Hc Hk Ht Hm). }
  clear Hnone.
  assert (Hsum : reachable s -> memory_type i <> "Summary (long chats)" ->
                 is_summary (cls m) = false).
  { intros Hreach Hmt. rewrite (selector_summary i s w m Hreach Hm).
    now apply String.eqb_neq. }
  rewrite (script_turn i s w render u m Hc Hk Ht Hu Hu' Hm).
  turn_cases m; requests_of_events; simpl;
    try match goal with H : cls m = _ |- _ => rewrite H in Hsum end;
    cbn [is_summary] in Hsum.
  all: (split; [lia|]); intros Hreach Hmt; try lia;
    specialize (Hsum Hreach Hmt); discriminate Hsum.
Qed.

(** X6.  A run makes at most two calls on [ChatGroq] clients (the
    completion and the summary update), and in a reachable session at most
    one unless the summary strategy is selected.  What a client sends inside
    one call, with the retries the library leaves enabled, is not counted. *)
Theorem X6_requests_per_run (i : Inputs) (s : SessionState) (w : World) :
  (length (requests (events (run i s w))) <= 2)%nat
  /\ (reachable s -> memory_type i <> "Summary (long chats)" ->
      (length (requests (events (run i s w))) <= 1)%nat).
Proof.
  destruct (clear_chat i) eqn:Hc.
  - destruct (run_quiet i s w) as [H _]; [left; exact Hc|].
    rewrite H. simpl. split; intros; lia.
  - rewrite (run_no_clear i s w Hc). unfold requests.
    rewrite filter_finish by reflexivity. now apply script_requests.
Qed.

(** *** Clear Chat (lines 106-110) *)

Lemma lastn_nil {A : Type} (n : nat) : lastn n (@nil A) = [].
Proof. unfold lastn. now destruct n. Qed.

Lemma cleared_idempotent (s : SessionState) : cleared (cleared s) = cleared s.
Proof.
  unfold cleared. destruct (memory s) as [m|] eqn:Hm.
  - cbn [memory _mem_config]. do 2 f_equal. unfold clear.
    now destruct (cls m).
  - now rewrite Hm.
Qed.

(** X7.  [Clear Chat] empties the memory object in place: the message list
    becomes empty and the running summary of a summary memory is reset, so
    the context the next turn would send is empty (an empty summary under
    the summary strategy); the recorded key and the class and construction
    parameters of the memory are kept, so no new object is made by the
    rerun; and pressing the button again changes nothing more. *)
Theorem X7_clear_resets_memory
  (i : Inputs) (s : SessionState) (w : World) (m : Memory) :
  memory s = Some m -> clear_chat i = true ->
  let s' := session_after (script i s w) in
  memory s' = Some (clear m)
  /\ _mem_config s' = _mem_config s
  /\ same_class (cls (clear m)) (cls m)
  /\ chat_memory (clear m) = []
  /\ load_memory_variables (clear m)
     = (if is_summary (cls m) then [SystemMessage ""] else [])
  /\ session_after (script i s' w) = s'.
Proof.
  intros Hm Hc s'. unfold s'. rewrite !(script_clear i _ w Hc). proj.
  rewrite cleared_idempotent. unfold cleared. rewrite Hm.
  cbn [memory _mem_config].
  repeat split; try apply clear_same_class; try apply clear_empty.
  unfold load_memory_variables, clear.
  destruct (cls m) as [|llm buffer|k]; cbn [cls chat_memory is_summary];
    try reflexivity.
  rewrite lastn_nil. now destruct (0 <? k).
Qed.

(** *** What a browser session can hold *)

Lemma exchanges_even (l : list BaseMessage) :
  exchanges l = true ->
  Nat.even (length l) = true
  /\ Forall (fun m => type m = "human" \/ type m = "ai") l.
Proof.
  assert (Haux : forall n (k : list BaseMessage),
            (length k <= n)%nat -> exchanges k = true ->
            Nat.even (length k) = true
            /\ Forall (fun m => type m = "human" \/ type m = "ai") k).
  { induction n as [|n IH]; intros k Hle H.
    - destruct k; [split; [reflexivity | constructor] | simpl in Hle; lia].
    - destruct k as [|[t|t|t] [|[t'|t'|t'] k]]; simpl in H;
        try discriminate H; [split; [reflexivity | constructor]|].
      destruct (IH k) as [Heven Hall]; [simpl in Hle; lia | exact H |].
      split; [exact Heven|].
      constructor; [now left|]. constructor; [now right | exact Hall]. }
  apply (Haux (length l)). lia.
Qed.

(** X8.  Whatever the widgets and the model did, the message list of a
    session is made of whole exchanges: a user's message followed by the
    assistant's, any number of times; it has even length and holds no system
    message (the summary never enters it). *)
Theorem X8_stored_whole_exchanges (s : SessionState) :
  reachable s ->
  exchanges (stored_messages s) = true
  /\ Nat.even (length (stored_messages s)) = true
  /\ Forall (fun m => type m = "human" \/ type m = "ai") (stored_messages s).
Proof.
  intros H. pose proof (reachable_exchanges s H) as Hex.
  split; [exact Hex | now apply exchanges_even].
Qed.

(** X9.  In a session the recorded key and the memory object are present
    together or absent together, and after the selector has run the memory
    object is there: the reads of [st.session_state.memory] that follow it
    (lines 155, 161, 188) find it. *)
Theorem X9_memory_present_after_selector (s : SessionState) :
  reachable s ->
  (memory s = None <-> _mem_config s = None)
  /\ forall (i : Inputs) (w : World),
       exists m,
         memory (session_after (initialize_memory i (window_k_of i) s w))
         = Some m.
Proof.
  intros H. split.
  - pose proof (reachable_coherent s H) as Hcoh. unfold coherent in Hcoh.
    destruct (_mem_config s), (memory s); try contradiction;
      split; intros; congruence.
  - intros i w.
    destruct (selector_class i s w H) as (m & _ & Hm & _). now exists m.
Qed.

Lemma new_memory_class (i : Inputs) (wk : option Z) :
  (memory_type i = "Buffer (all)" ->
   cls (new_memory i wk) = ConversationBufferMemory)
  /\ (memory_type i = "Summary (long chats)" ->
      cls (new_memory i wk)
      = ConversationSummaryMemory
          {| llm_model_name := model_name i; llm_temperature := 0%Q;
             llm_max_tokens := None; llm_api_key := GROQ_API_KEY i |} "")
  /\ (memory_type i = "Window (last N)" ->
      cls (new_memory i wk)
      = ConversationBufferWindowMemory (or_default wk 6))
  /\ (~ In (memory_type i) memory_options ->
      cls (new_memory i wk) = ConversationBufferMemory).
Proof.
  unfold new_memory. repeat split.
  - now intros ->.
  - now intros ->.
  - now intros ->.
  - intros Hout. unfold memory_options in Hout. cbn [In] in Hout.
    destruct (String.eqb_spec (memory_type i) "Buffer (all)"); [reflexivity|].
    destruct (String.eqb_spec (memory_type i) "Summary (long chats)") as [E|_];
      [elim Hout; rewrite E; tauto|].
    destruct (String.eqb_spec (memory_type i) "Window (last N)") as [E|_];
      [elim Hout; rewrite E; tauto | reflexivity].
Qed.

(** X10.  In a session the memory object is of the class the recorded key
    names: a keep-all memory for the keep-all key, a summary memory for the
    summary key, and a window memory of the recorded size (6 in place of 0)
    for a window key. *)
Theorem X10_class_follows_key
  (s : SessionState) (i : Inputs) (m : Memory) :
  reachable s ->
  _mem_config s = Some (mem_key (memory_type i) (window_k_of i)) ->
  memory s = Some m ->
  (memory_type i = "Buffer (all)" -> cls m = ConversationBufferMemory)
  /\ (memory_type i = "Summary (long chats)" ->
      exists llm buffer, cls m = ConversationSummaryMemory llm buffer)
  /\ (memory_type i = "Window (last N)" ->
      cls m = ConversationBufferWindowMemory
                (or_default (Some (window_slider i)) 6))
  /\ (~ In (memory_type i) memory_options ->
      cls m = ConversationBufferMemory).
Proof.
  intros Hreach Hcfg Hm.
  pose proof (reachable_coherent s Hreach) as Hcoh. unfold coherent in Hcoh.
  rewrite Hcfg, Hm in Hcoh. destruct Hcoh as (i' & Hk' & Hcls).
  apply mem_key_inj in Hk'. destruct Hk' as [Hmt Hwk].
  destruct (new_memory_class i' (window_k_of i')) as (Hb & Hs & Hw & Ho).
  rewrite <- Hmt, <- Hwk in *. split; [|split; [|split]].
  - intros E. rewrite (Hb E) in Hcls. now destruct (cls m).
  - intros E. rewrite (Hs E) in Hcls.
    destruct (cls m) as [|llm buffer|k]; try contradiction.
    now exists llm, buffer.
  - intros E. rewrite (Hw E) in Hcls. unfold window_k_of in Hcls.
    rewrite E in Hcls. simpl in Hcls.
    destruct (cls m) as [|llm buffer|k]; try contradiction.
    simpl in Hcls. now subst k.
  - intros E. rewrite (Ho E) in Hcls. now destruct (cls m).
Qed.

(** *** What a turn sends to the model (lines 137-158, 172-177) *)

Lemma collect_app {A : Type} (f : Event -> option A) (a b : list Event) :
  collect f (a ++ b) = collect f a ++ collect f b.
Proof.
  induction a as [|e a IH]; [reflexivity|].
  simpl. destruct (f e); simpl; now rewrite IH.
Qed.

Lemma collect_bubbles {A : Type} (f : Event -> option A)
  (l : list BaseMessage) :
  (forall name body, f (st_chat_message name body) = None) ->
  collect f (map bubble l) = [].
Proof.
  intros Hf. induction l as [|msg l IH]; [reflexivity|].
  cbn [map collect]. unfold bubble at 1.
  destruct (type msg =? "human")%string; now rewrite Hf.
Qed.

Lemma collect_reveal {A : Type} (f : Event -> option A) (l : list string)
  (accum : string) :
  (forall body, f (placeholder_markdown body) = None) ->
  f time_sleep = None ->
  collect f (reveal accum l) = [].
Proof.
  intros Hf Hs. revert accum. induction l as [|ch l IH]; intros accum;
    [reflexivity|].
  cbn [reveal collect]. now rewrite Hf, Hs, IH.
Qed.

Lemma collect_finish {A : Type} (f : Event -> option A) (r : Run World unit) :
  (forall e, f (st_exception e) = None) ->
  collect f (events (finish r)) = collect f (events r).
Proof.
  intros Hf. unfold finish. destruct (result r) as [|[| |e]]; try reflexivity.
  proj. rewrite collect_app. cbn [collect]. rewrite Hf. apply app_nil_r.
Qed.

(** Evaluates what [collect] and [prompts] read off a script case. *)
Ltac read_events :=
  proj;
  repeat first
    [ rewrite collect_app
    | rewrite collect_bubbles by reflexivity
    | rewrite collect_reveal by reflexivity
    | rewrite prompts_app
    | rewrite prompts_bubbles
    | rewrite prompts_reveal
    | progress cbn [collect completion_client summary_update prompts
                    prompt_of] ];
  cbn [Datatypes.app].

(** The one completion call of a turn: its prompt and its client. *)
Lemma turn_completion (i : Inputs) (s : SessionState) (w : World)
  (render : list BaseMessage -> string -> string) (u : string) (m : Memory) :
  clear_chat i = false -> truthy (GROQ_API_KEY i) = true ->
  system_template (system_prompt i) = Some render ->
  user_input i = Some u -> truthy u = true ->
  memory (session_after (initialize_memory i (window_k_of i) s w)) = Some m ->
  prompts (events (run i s w))
  = [format_messages render (load_memory_variables m) u]
  /\ collect completion_client (events (run i s w)) = [build_llm i].
Proof.
  intros Hc Hk Ht Hu Hu' Hm.
  rewrite (run_no_clear i s w Hc), prompts_finish, collect_finish
    by reflexivity.
  rewrite (script_turn i s w render u m Hc Hk Ht Hu Hu' Hm).
  turn_cases m; read_events; split; reflexivity.
Qed.

(** X11.  Under the keep-all strategy the prompt of a turn is the system
    message, then every stored message in order, then the new input: the
    whole history is sent, and the prompt is two messages longer than the
    stored list. *)
Theorem X11_buffer_prompt
  (i : Inputs) (s : SessionState) (w : World)
  (render : list BaseMessage -> string -> string) (u : string) :
  reachable s -> memory_type i = "Buffer (all)" ->
  clear_chat i = false -> truthy (GROQ_API_KEY i) = true ->
  system_template (system_prompt i) = Some render ->
  user_input i = Some u -> truthy u = true ->
  let stored :=
    stored_messages (session_after (initialize_memory i (window_k_of i) s w)) in
  prompts (events (run i s w))
  = [[SystemMessage (render stored u)] ++ stored ++ [HumanMessage u]]
  /\ Forall (fun p => length p = (length stored + 2)%nat)
       (prompts (events (run i s w))).
Proof.
  intros Hreach Hmt Hc Hk Ht Hu Hu' stored.
  destruct (selector_class i s w Hreach) as (m & i' & Hm & Hmt' & _ & Hcls).
  destruct (new_memory_class i' (window_k_of i')) as (Hb & _).
  rewrite Hb in Hcls by congruence.
  assert (Hload : load_memory_variables m = stored).
  { unfold stored, stored_messages, load_memory_variables. rewrite Hm.
    now destruct (cls m). }
  destruct (turn_completion i s w render u m Hc Hk Ht Hu Hu' Hm) as [Hp _].
  rewrite Hp, Hload. unfold format_messages. split; [reflexivity|].
  constructor; [|constructor].
  simpl. rewrite length_app. simpl. lia.
Qed.

(** X19.  A turn makes one completion call, on a client constructed in
    that rerun from the widgets: its model name, its token limit and its API
    key are the ones now selected. *)
Theorem X19_completion_uses_current_settings
  (i : Inputs) (s : SessionState) (w : World)
  (render : list BaseMessage -> string -> string) (u : string) (m : Memory) :
  clear_chat i = false -> truthy (GROQ_API_KEY i) = true ->
  system_template (system_prompt i) = Some render ->
  user_input i = Some u -> truthy u = true ->
  memory (session_after (initialize_memory i (window_k_of i) s w)) = Some m ->
  exists llm,
    collect completion_client (events (run i s w)) = [llm]
    /\ llm_model_name llm = model_name i
    /\ llm_max_tokens llm = Some (max_tokens i)
    /\ llm_api_key llm = GROQ_API_KEY i.
Proof.
  intros Hc Hk Ht Hu Hu' Hm. exists (build_llm i).
  split; [|now repeat split].
  exact (proj2 (turn_completion i s w render u m Hc Hk Ht Hu Hu' Hm)).
Qed.

Lemma lastn_all {A : Type} (n : nat) (l : list A) :
  (length l <= n)%nat -> lastn n l = l.
Proof.
  intros H. unfold lastn. replace (length l - n)%nat with 0%nat by lia.
  reflexivity.
Qed.

(** X13.  Under the keep-last-N strategy, while at most N exchanges are
    stored nothing is dropped: the prompt of a turn carries the whole stored
    list between the system message and the new input. *)
Theorem X13_window_keeps_short_history
  (i : Inputs) (s : SessionState) (w : World)
  (render : list BaseMessage -> string -> string) (u : string) :
  reachable s ->
  memory_type i = "Window (last N)" -> 2 <= window_slider i <= 20 ->
  clear_chat i = false -> truthy (GROQ_API_KEY i) = true ->
  system_template (system_prompt i) = Some render ->
  user_input i = Some u -> truthy u = true ->
  let stored :=
    stored_messages (session_after (initialize_memory i (window_k_of i) s w)) in
  (length stored <= 2 * Z.to_nat (window_slider i))%nat ->
  prompts (events (run i s w))
  = [[SystemMessage (render stored u)] ++ stored ++ [HumanMessage u]].
Proof.
  intros Hreach Hmt Hrange Hc Hk Ht Hu Hu' stored Hlen.
  destruct (selector_class i s w Hreach) as (m & i' & Hm & Hmt' & Hwk & Hcls).
  destruct (new_memory_class i' (window_k_of i')) as (_ & _ & Hw & _).
  rewrite Hw in Hcls by congruence. rewrite Hwk in Hcls.
  unfold window_k_of in Hcls. rewrite Hmt in Hcls. simpl in Hcls.
  destruct (Z.eqb_spec (window_slider i) 0) as [H0|_]; [lia|].
  assert (Hload : load_memory_variables m = stored).
  { unfold stored, stored_messages in *. rewrite Hm in *.
    unfold load_memory_variables.
    destruct (cls m) as [|llm buffer|k]; try contradiction.
    simpl in Hcls. subst k.
    destruct (Z.ltb_spec 0 (window_slider i)) as [_|H0]; [|lia].
    apply lastn_all. lia. }
  destruct (turn_completion i s w render u m Hc Hk Ht Hu Hu' Hm) as [Hp _].
  now rewrite Hp, Hload.
Qed.

(** X12.  Under the summary strategy the prompt of a turn has three
    messages: the system message, the running summary as a system message,
    and the new input; the stored messages themselves are not sent.  When
    the completion fails no summary update is requested; when it answers,
    one update is requested, on the memory's client, from the running
    summary and the two messages of the turn, and what it returns becomes
    the running summary. *)
Theorem X12_summary_turn
  (i : Inputs) (s : SessionState) (w : World)
  (render : list BaseMessage -> string -> string) (u : string) :
  reachable s -> memory_type i = "Summary (long chats)" ->
  clear_chat i = false -> truthy (GROQ_API_KEY i) = true ->
  system_template (system_prompt i) = Some render ->
  user_input i = Some u -> truthy u = true ->
  exists m llm buffer,
    memory (session_after (initialize_memory i (window_k_of i) s w)) = Some m
    /\ cls m = ConversationSummaryMemory llm buffer
    /\ prompts (events (run i s w))
       = [[SystemMessage (render [SystemMessage buffer] u);
           SystemMessage buffer; HumanMessage u]]
    /\ (forall e w1,
          groq w (chat_completion (build_llm i)
                    [SystemMessage (render [SystemMessage buffer] u);
                     SystemMessage buffer; HumanMessage u])
          = (Failure e, w1) ->
          collect summary_update (events (run i s w)) = [])
    /\ (forall r w1,
          groq w (chat_completion (build_llm i)
                    [SystemMessage (render [SystemMessage buffer] u);
                     SystemMessage buffer; HumanMessage u])
          = (Completion r, w1) ->
          collect summary_update (events (run i s w))
          = [(llm, buffer, [HumanMessage u; AIMessage r],
              fst (groq w1 (summarize llm buffer
                              [HumanMessage u; AIMessage r])))]
          /\ forall summary w2,
               groq w1 (summarize llm buffer [HumanMessage u; AIMessage r])
               = (Completion summary, w2) ->
               memory (session_after (run i s w))
               = Some {| cls := ConversationSummaryMemory llm summary;
                         chat_memory := chat_memory m
                                        ++ [HumanMessage u; AIMessage r] |}).
Proof.
  intros Hreach Hmt Hc Hk Ht Hu Hu'.
  destruct (selector_class i s w Hreach) as (m & i' & Hm & Hmt' & _ & Hcls).
  destruct (new_memory_class i' (window_k_of i')) as (_ & Hs & _).
  rewrite Hs in Hcls by congruence.
  destruct (cls m) as [|llm buffer|k] eqn:Hclsm; try contradiction.
  simpl in Hcls. exists m, llm, buffer.
  split; [exact Hm|]. split; [exact Hclsm|]. clear Hcls.
  assert (Hload : load_memory_variables m = [SystemMessage buffer]).
  { unfold load_memory_variables. now rewrite Hclsm. }
  destruct (turn_completion i s w render u m Hc Hk Ht Hu Hu' Hm) as [Hp _].
  rewrite Hp, Hload. split; [reflexivity|].
  rewrite (run_no_clear i s w Hc), collect_finish, finish_session
    by reflexivity.
  rewrite (script_turn i s w render u m Hc Hk Ht Hu Hu' Hm). cbv zeta.
  rewrite Hload, Hclsm. unfold format_messages. cbn [Datatypes.app].
  split.
  - intros e w1 G. rewrite G. read_events. reflexivity.
  - intros r w1 G. rewrite G.
    destruct (groq w1 (summarize llm buffer [HumanMessage u; AIMessage r]))
      as [[summary|e] w2] eqn:G2; read_events.
    + split; [reflexivity|]. intros summary' w2' E. now injection E as <- _.
    + split; [reflexivity|]. intros summary' w2' E. discriminate E.
Qed.

(** X16.  When, under the summary strategy, the completion answers and the
    summary update fails, the run ends in the update's exception without a
    download button; the exchange is in the message list, which later reruns
    display and export, but the running summary is the old one, so the
    context of later turns does not cover that exchange. *)
Theorem X16_failed_summary_update
  (i : Inputs) (s : SessionState) (w w1 w2 : World)
  (render : list BaseMessage -> string -> string) (u r : string) (m : Memory)
  (llm : ChatGroq) (buffer : string) (e : Exception) :
  clear_chat i = false -> truthy (GROQ_API_KEY i) = true ->
  system_template (system_prompt i) = Some render ->
  user_input i = Some u -> truthy u = true ->
  memory (session_after (initialize_memory i (window_k_of i) s w)) = Some m ->
  cls m = ConversationSummaryMemory llm buffer ->
  groq w (chat_completion (build_llm i)
            (format_messages render (load_memory_variables m) u))
  = (Completion r, w1) ->
  groq w1 (summarize llm buffer [HumanMessage u; AIMessage r])
  = (Failure e, w2) ->
  let after := {| cls := ConversationSummaryMemory llm buffer;
                  chat_memory := chat_memory m
                                 ++ [HumanMessage u; AIMessage r] |} in
  result (run i s w) = Abort (Raise e)
  /\ memory (session_after (run i s w)) = Some after
  /\ load_memory_variables after = load_memory_variables m
  /\ downloads (events (run i s w)) = []
  /\ In (st_exception e) (events (run i s w)).
Proof.
  intros Hc Hk Ht Hu Hu' Hm Hcls G G2 after.
  rewrite (run_no_clear i s w Hc).
  rewrite downloads_finish, finish_result, finish_session.
  unfold finish.
  rewrite (script_turn i s w render u m Hc Hk Ht Hu Hu' Hm). cbv zeta.
  rewrite G, Hcls, G2. proj.
  split; [reflexivity|]. split; [reflexivity|].
  split; [unfold load_memory_variables; now rewrite Hcls|].
  split; [downloads_of_events; reflexivity|].
  apply in_or_app. right. now left.
Qed.

(** X14.  Turns compose under the keep-all strategy: after a turn whose
    completion answered, the next turn's prompt carries the list the first
    turn started from, then the first turn's input and answer, then the new
    input. *)
Theorem X14_turns_compose
  (i1 i2 : Inputs) (s : SessionState) (w w1 : World)
  (render1 render2 : list BaseMessage -> string -> string)
  (u1 u2 r1 : string) (m : Memory) :
  memory_type i1 = "Buffer (all)" -> memory_type i2 = "Buffer (all)" ->
  clear_chat i1 = false -> truthy (GROQ_API_KEY i1) = true ->
  system_template (system_prompt i1) = Some render1 ->
  user_input i1 = Some u1 -> truthy u1 = true ->
  clear_chat i2 = false -> truthy (GROQ_API_KEY i2) = true ->
  system_template (system_prompt i2) = Some render2 ->
  user_input i2 = Some u2 -> truthy u2 = true ->
  memory (session_after (initialize_memory i1 (window_k_of i1) s w)) = Some m ->
  cls m = ConversationBufferMemory ->
  groq w (chat_completion (build_llm i1)
            (format_messages render1 (chat_memory m) u1))
  = (Completion r1, w1) ->
  let first := run i1 s w in
  let history := chat_memory m ++ [HumanMessage u1; AIMessage r1] in
  prompts (events (run i2 (session_after first) (world_after first)))
  = [[SystemMessage (render2 history u2)] ++ history ++ [HumanMessage u2]].
Proof.
  intros Hmt1 Hmt2 Hc1 Hk1 Ht1 Hu1 Hu1' Hc2 Hk2 Ht2 Hu2 Hu2' Hm Hcls G
    first history.
  assert (Hload : load_memory_variables m = chat_memory m)
    by (unfold load_memory_variables; now rewrite Hcls).
  assert (Hfirst : session_after first
                   = {| memory := Some {| cls := ConversationBufferMemory;
                                          chat_memory := history |};
                        _mem_config :=
                          Some (mem_key (memory_type i1) (window_k_of i1)) |}).
  { unfold first. rewrite (run_no_clear i1 s w Hc1), finish_session.
    rewrite (script_turn i1 s w render1 u1 m Hc1 Hk1 Ht1 Hu1 Hu1' Hm).
    cbv zeta. rewrite Hload, G, Hcls. proj.
    now rewrite initialize_memory_key. }
  assert (Hkey : mem_key (memory_type i2) (window_k_of i2)
                 = mem_key (memory_type i1) (window_k_of i1)).
  { unfold window_k_of. now rewrite Hmt1, Hmt2. }
  assert (Hm2 : memory (session_after
                          (initialize_memory i2 (window_k_of i2)
                             (session_after first) (world_after first)))
                = Some {| cls := ConversationBufferMemory;
                          chat_memory := history |}).
  { rewrite initialize_memory_same_key; rewrite Hfirst; [reflexivity|].
    cbn [_mem_config]. now rewrite Hkey. }
  destruct (turn_completion i2 (session_after first) (world_after first)
              render2 u2 _ Hc2 Hk2 Ht2 Hu2 Hu2' Hm2) as [Hp _].
  rewrite Hp. reflexivity.
Qed.

(** *** A rerun with nothing typed (lines 161-166, 188-201) *)

(** X2.  A rerun that gets past the key check with the button at rest and
    nothing typed calls no model and leaves the world as it was; it leaves
    the session state as it was when the recorded key is the requested one,
    and otherwise leaves the requested key recorded and an empty message
    list.  When the system prompt compiles as a template the rerun ends
    normally, having drawn one bubble per message of the list it leaves, in
    order, the user's messages under the name [user] and the others under
    [assistant], followed by the download button when that list is not
    empty.  When the prompt does not compile, the rerun ends in the
    exception, which is displayed, and nothing else is drawn. *)
Theorem X2_idle_rerun_redraws_history
  (i : Inputs) (s : SessionState) (w : World) :
  reachable s ->
  clear_chat i = false -> truthy (GROQ_API_KEY i) = true ->
  match user_input i with Some u => truthy u | None => false end = false ->
  let r := run i s w in
  let key := mem_key (memory_type i) (window_k_of i) in
  let stored := stored_messages (session_after r) in
  world_after r = w
  /\ (_mem_config s = Some key -> session_after r = s)
  /\ (_mem_config s <> Some key ->
      _mem_config (session_after r) = Some key /\ stored = [])
  /\ (system_template (system_prompt i) <> None ->
      result r = Ok tt
      /\ events r
         = map (fun msg => match msg with
                           | HumanMessage text => st_chat_message "user" text
                           | AIMessage text | SystemMessage text =>
                               st_chat_message "assistant" text
                           end) stored
           ++ match stored with
              | [] => []
              | _ :: _ => [st_download_button (history_text stored)]
              end)
  /\ (system_template (system_prompt i) = None ->
      result r = Abort (Raise (ValueError "prompt"))
      /\ events r = [st_exception (ValueError "prompt")]).
Proof.
  intros Hreach Hc Hk Hu r key stored.
  destruct (selector_class i s w Hreach) as (m & _ & Hm & _).
  assert (Hs : session_after r
               = session_after (initialize_memory i (window_k_of i) s w))
    by (apply run_idle_session; assumption).
  unfold stored. rewrite Hs.
  split; [|split; [|split; [|split]]].
  - unfold r. rewrite (run_no_clear i s w Hc), finish_world.
    destruct (system_template (system_prompt i)) as [render|] eqn:Ht.
    + now rewrite (script_idle i s w render m Hc Hk Ht Hu Hm).
    + now rewrite (script_no_chain i s w Hc Hk Ht).
  - intros Hkey. now apply initialize_memory_same_key.
  - intros Hkey. rewrite (initialize_memory_other_key i s w Hkey).
    unfold stored_messages. cbn [_mem_config memory].
    split; [reflexivity | apply new_memory_empty].
  - intros Ht.
    destruct (system_template (system_prompt i)) as [render|] eqn:Ht';
      [clear Ht | now elim Ht].
    unfold r. rewrite (run_no_clear i s w Hc).
    rewrite (script_idle i s w render m Hc Hk Ht' Hu Hm).
    unfold finish. proj. unfold stored_messages. rewrite Hm.
    split; [reflexivity|]. f_equal. apply map_ext. now intros [t|t|t].
  - intros Ht. unfold r. rewrite (run_no_clear i s w Hc).
    rewrite (script_no_chain i s w Hc Hk Ht). unfold finish. proj.
    now split.
Qed.

(** *** The transcript (lines 189-193) *)

Lemma concat_app (sep : string) (a b : list string) :
  a <> [] -> b <> [] ->
  String.concat sep (a ++ b)
  = (String.concat sep a ++ sep ++ String.concat sep b)%string.
Proof.
  intros Ha Hb. induction a as [|x a IH]; [congruence|].
  destruct a as [|y a].
  - destruct b as [|z b]; [congruence | reflexivity].
  - change (String.concat sep ((x :: y :: a) ++ b))
      with (x ++ sep ++ String.concat sep ((y :: a) ++ b))%string.
    rewrite IH by discriminate.
    change (String.concat sep (x :: y :: a))
      with (x ++ sep ++ String.concat sep (y :: a))%string.
    now rewrite !append_assoc.
Qed.

(** X15.  The transcript grows by appending: after an exchange is stored it
    is the previous transcript, a blank line, the user's line, a blank line
    and the assistant's line; the text already exported is a prefix of
    every later export.  For the first exchange it is the two lines
    alone. *)
Theorem X15_export_appends (l : list BaseMessage) (u r : string) :
  history_text (l ++ [HumanMessage u; AIMessage r])
  = match l with
    | [] => ("HUMAN: " ++ u ++ blank_line ++ "AI: " ++ r)%string
    | _ :: _ => (history_text l ++ blank_line ++ "HUMAN: " ++ u
                 ++ blank_line ++ "AI: " ++ r)%string
    end.
Proof.
  destruct l as [|m l]; [reflexivity|].
  unfold history_text, history_lines. rewrite map_app.
  rewrite concat_app by discriminate. reflexivity.
Qed.

(** *** The sidebar (lines 46-104) *)

(** X17.  The default system prompt is always found (the subscript of line
    83 raises no [KeyError]) and is never empty; for each of the four modes
    of the select box it is that mode's own preset, and the four presets
    differ, so two modes never share a default; for any other mode it is the
    preset of the general assistant. *)
Theorem X17_default_system_prompt (mode : string) :
  exists text,
    default_system_prompt mode = Some text
    /\ truthy text = true
    /\ (In mode mode_options -> getitem preset_prompts mode = Some text)
    /\ (~ In mode mode_options ->
        text = "You are a friendly, efficient assistant. Be brief, accurate, and helpful.")
    /\ (forall mode', In mode mode_options -> In mode' mode_options ->
        default_system_prompt mode' = Some text -> mode' = mode).
Proof.
  unfold default_system_prompt, get. simpl getitem at 1.
  unfold mode_options, preset_prompts. cbn [getitem In].
  repeat match goal with
         | |- context [(?k =? mode)%string] =>
             destruct (String.eqb_spec k mode) as [<-|?]
         end.
  all: eexists; split; [reflexivity|]; split; [reflexivity|].
  all: split; [intros H; first [reflexivity | tauto]|].
  all: split; [intros H; first [reflexivity | (elim H; tauto)]|].
  all: intros mode' H H'; try tauto.
  all: destruct H' as [<-|[<-|[<-|[<-|[]]]]]; vm_compute; intros E;
    first [reflexivity | discriminate E].
Qed.

(** X18.  For values the widgets can produce the fallback branches of the
    selector are dead: the memory constructed is a keep-all memory only
    under the keep-all strategy, a summary memory on a client built from the
    current model and key under the summary strategy, and under the window
    strategy a window memory whose size is the slider's value, between 2 and
    20 (the default 6 is never used). *)
Theorem X18_selector_on_widget_values (i : Inputs) :
  widget_values i ->
  match cls (new_memory i (window_k_of i)) with
  | ConversationBufferMemory => memory_type i = "Buffer (all)"
  | ConversationSummaryMemory llm buffer =>
      memory_type i = "Summary (long chats)"
      /\ llm = {| llm_model_name := model_name i; llm_temperature := 0%Q;
                  llm_max_tokens := None; llm_api_key := GROQ_API_KEY i |}
      /\ buffer = ""
  | ConversationBufferWindowMemory k =>
      memory_type i = "Window (last N)"
      /\ k = window_slider i /\ 2 <= k <= 20
  end.
Proof.
  intros (_ & Hmt & Hslider & _). unfold memory_options in Hmt.
  destruct (new_memory_class i (window_k_of i)) as (Hb & Hs & Hw & _).
  destruct Hmt as [E|[E|[E|[]]]]; symmetry in E.
  - now rewrite (Hb E).
  - rewrite (Hs E). now repeat split.
  - rewrite (Hw E). unfold window_k_of. rewrite E. simpl.
    destruct (Z.eqb_spec (window_slider i) 0) as [H0|_]; [lia|].
    now repeat split.
Qed.
End App.

Arguments ret {World A} a s w.
Arguments bind {World A B} m f s w.
Arguments initialize_memory {World} i window_k s w.
Arguments typing_effect {World} full_response s w.
Arguments script {World} groq system_template i s w.
Arguments run {World} groq system_template i s w.
Arguments run_all {World} groq system_template turns s w.
Arguments succeeded {World} r.
Arguments answered {World} r.
Arguments session_at_end {World} s runs.
Arguments reachable {World} groq system_template s.
Arguments reachable_empty {World} groq system_template.
Arguments reachable_run {World} groq system_template i s w _.


(** ** Sample runs *)

Example mem_key_window : mem_key "Window (last N)" (Some 12)
                         = "memory::Window (last N)::12".
Proof. reflexivity. Qed.

Example mem_key_buffer : mem_key "Buffer (all)" None
                         = "memory::Buffer (all)::None".
Proof. reflexivity. Qed.

(** The first message of a session under the keep-all strategy: the memory
    holds the exchange and the transcript has its two lines. *)
Example hello_keep_all :
  let r := run (keyed_service "k") literal_template
             (sample_inputs "k" "Buffer (all)" 6 false (Some "Hello"))
             empty_session tt in
  result r = Ok tt
  /\ stored_messages (session_after r)
     = [HumanMessage "Hello"; AIMessage "Hi there"]
  /\ In (st_download_button
           ("HUMAN: Hello" ++ blank_line ++ "AI: Hi there")) (events r)
  /\ split_blank ("HUMAN: Hello" ++ blank_line ++ "AI: Hi there")
     = ["HUMAN: Hello"; "AI: Hi there"].
Proof. vm_compute. repeat split; tauto. Qed.

(** Python's [split] on a separator that overlaps itself takes the leftmost
    occurrence. *)
Example split_three_newlines :
  split_blank (String newline (String newline (String newline "a")))
  = [""; String newline "a"].
Proof. reflexivity. Qed.

(** The typing loop walks code points: an accented letter is one frame. *)
Example typing_accented_letter :
  code_points "hé!" = ["h"; "é"; "!"]
  /\ frames (events (typing_effect "hé!" empty_session tt))
     = ["h"; "hé"; "hé!"].
Proof. vm_compute. split; reflexivity. Qed.

(** ** The claims on sample runs *)

(** Moving the window slider from 6 to 12 changes the key, and the rerun
    ends with an empty list. *)
Lemma C1_witness :
  let i := sample_inputs "k" "Window (last N)" 12 false None in
  mem_key (memory_type i) (window_k_of i) = "memory::Window (last N)::12"
  /\ _mem_config sample_short_window_session
     = Some "memory::Window (last N)::6"
  /\ stored_messages sample_short_window_session
     = [HumanMessage "Hello"; AIMessage "Hi there"]
  /\ stored_messages
       (session_after
          (run (keyed_service "k") literal_template i
             sample_short_window_session tt)) = [].
Proof.
  intros i.
  assert (H : _mem_config sample_short_window_session
              <> Some (mem_key (memory_type i) (window_k_of i)))
    by (vm_compute; discriminate).
  split; [reflexivity|]. split; [reflexivity|]. split; [reflexivity|].
  destruct (C1_memory_keyed_by_configuration unit (keyed_service "k")
              literal_template i sample_short_window_session tt)
    as (_ & _ & _ & _ & _ & _ & Hrun & _).
  exact (Hrun eq_refl eq_refl H).
Defined.

(** After a first exchange under the keep-all strategy the API key is
    emptied and the strategy switched to the window: the rerun stops at the
    key check, the recorded key is the old one and the memory still holds
    the exchange. *)
Lemma C1_counterexample :
  let first := sample_inputs "k" "Buffer (all)" 6 false (Some "Hello") in
  let switch := sample_inputs "" "Window (last N)" 6 false None in
  let s := session_after
             (run (keyed_service "k") literal_template first
                empty_session tt) in
  let r := run (keyed_service "k") literal_template switch s tt in
  _mem_config s = Some "memory::Buffer (all)::None"
  /\ mem_key (memory_type switch) (window_k_of switch)
     = "memory::Window (last N)::6"
  /\ result r = Abort Stop
  /\ _mem_config (session_after r) = Some "memory::Buffer (all)::None"
  /\ memory (session_after r) = memory s
  /\ stored_messages (session_after r)
     = [HumanMessage "Hello"; AIMessage "Hi there"].
Proof. vm_compute. repeat split. Qed.



Lemma C3_witness :
  let turn := sample_inputs "k" "Buffer (all)" 6 false (Some "How are you?") in
  let runs := run_all (keyed_service "k") literal_template [turn; turn]
                sample_session tt in
  length (stored_messages (session_at_end sample_session runs))
  = (2 + 2 * length (filter succeeded runs))%nat.
Proof.
  intros turn runs.
  assert (Hturn : turn_input "memory::Buffer (all)::None" turn).
  { split; [reflexivity|]. split; [reflexivity|].
    exists "How are you?". split; reflexivity. }
  exact (proj2 (proj2 (proj2
           (C3_length_counts_answered_turns unit (keyed_service "k")
              literal_template "memory::Buffer (all)::None" [turn; turn]
              sample_session tt
              {| cls := ConversationBufferMemory;
                 chat_memory := [HumanMessage "Hello";
                                 AIMessage "Hi there"] |}
              (Forall_cons _ Hturn (Forall_cons _ Hturn (Forall_nil _)))
              eq_refl eq_refl))) eq_refl).
Defined.

(** Under the summary strategy a turn whose completion answered and whose
    summary update failed is a failed turn that stored its two messages. *)
Lemma C3_counterexample :
  let turn := sample_inputs "k" "Summary (long chats)" 6 false (Some "Hello") in
  let runs := run_all summary_outage literal_template [turn]
                empty_session tt in
  map result runs = [Abort (Raise (APIError "429 rate limit"))]
  /\ length (filter succeeded runs) = 0%nat
  /\ stored_messages (session_at_end empty_session runs)
     = [HumanMessage "Hello"; AIMessage "Hi there"]
  /\ length (stored_messages (session_at_end empty_session runs))
     <> (2 * length (filter succeeded runs))%nat.
Proof. vm_compute. repeat split; discriminate. Qed.

Lemma C4_witness :
  split_blank (history_text [HumanMessage "Hello"; AIMessage "Hi there"])
  = ["HUMAN: Hello"; "AI: Hi there"].
Proof.
  refine (proj1 (C4_history_export
                   [HumanMessage "Hello"; AIMessage "Hi there"] _ _)).
  - discriminate.
  - repeat constructor.
Defined.

(** A content with a blank line splits into two entries, and the second
    does not begin with a role label. *)
Lemma C4_counterexample :
  let messages := [AIMessage ("First." ++ blank_line ++ "Second.")] in
  split_blank (history_text messages) = ["AI: First."; "Second."]
  /\ length (split_blank (history_text messages)) <> length messages.
Proof. vm_compute. split; [reflexivity | discriminate]. Qed.

Lemma C5_witness :
  exists m older context,
    memory (session_after
              (initialize_memory
                 (sample_inputs "k" "Window (last N)" 2 false (Some "Bye"))
                 (window_k_of
                    (sample_inputs "k" "Window (last N)" 2 false (Some "Bye")))
                 sample_window_session tt)) = Some m
    /\ cls m = ConversationBufferWindowMemory 2
    /\ prompts (events (run (keyed_service "k") literal_template
                          (sample_inputs "k" "Window (last N)" 2 false
                             (Some "Bye"))
                          sample_window_session tt))
       = [[SystemMessage "You are a friendly, efficient assistant."]
          ++ context ++ [HumanMessage "Bye"]]
    /\ context = lastn 4 (chat_memory m)
    /\ chat_memory m = older ++ context
    /\ (length context <= 4)%nat
    /\ ((4 < length (chat_memory m))%nat -> length context = 4%nat).
Proof.
  assert (Hreach : reachable (keyed_service "k") literal_template
                     sample_window_session).
  { pose (turn := sample_inputs "k" "Window (last N)" 2 false (Some "Hello")).
    pose (g := keyed_service "k").
    change sample_window_session
      with (session_after
              (run g literal_template turn
                 (session_after
                    (run g literal_template turn
                       (session_after
                          (run g literal_template turn empty_session tt))
                       tt))
                 tt)).
    repeat apply reachable_run. apply reachable_empty. }
  apply (C5_window_context unit (keyed_service "k") literal_template
           (sample_inputs "k" "Window (last N)" 2 false (Some "Bye"))
           sample_window_session tt
           (fun _ _ => "You are a friendly, efficient assistant.") "Bye"
           Hreach eq_refl);
    try reflexivity.
  simpl; lia.
Defined.

Lemma C6_witness :
  let r := run (keyed_service "k") literal_template
             (sample_inputs "" "Buffer (all)" 6 false (Some "Hello"))
             sample_session tt in
  let r' := run (keyed_service "k") literal_template
              (sample_inputs "wrong" "Buffer (all)" 6 false (Some "Hello"))
              sample_session tt in
  (result r = Abort Stop
   /\ existsb is_model_request (events r) = false
   /\ session_after r = sample_session)
  /\ result r' = Abort (Raise (APIError "401 invalid api key")).
Proof.
  intros r r'. split.
  - destruct (C6_missing_key_stops unit (keyed_service "k") literal_template
                (sample_inputs "" "Buffer (all)" 6 false (Some "Hello"))
                sample_session tt) as [Hmissing _].
    destruct (Hmissing eq_refl) as (Hres & _ & Hreq & _ & Hs).
    split; [exact Hres|]. split; [exact Hreq | exact Hs].
  - destruct (C6_missing_key_stops unit (keyed_service "k") literal_template
                (sample_inputs "wrong" "Buffer (all)" 6 false (Some "Hello"))
                sample_session tt) as [_ Hentered].
    destruct (Hentered eq_refl) as [_ Hturn].
    destruct (Hturn (fun _ _ => "You are a friendly, efficient assistant.")
                "Hello"
                {| cls := ConversationBufferMemory;
                   chat_memory := [HumanMessage "Hello";
                                   AIMessage "Hi there"] |}
                eq_refl eq_refl eq_refl eq_refl eq_refl)
      as (_ & _ & Hfail).
    exact (proj1 (Hfail (APIError "401 invalid api key") tt eq_refl)).
Defined.

(** A key that is entered and that the service rejects is sent to the
    service: the request is issued and comes back as an error. *)
Lemma C6_counterexample :
  let r := run (keyed_service "gsk_valid") literal_template
             (sample_inputs "wrong" "Buffer (all)" 6 false (Some "Hello"))
             empty_session tt in
  existsb is_model_request (events r) = true
  /\ result r = Abort (Raise (APIError "401 invalid api key")).
Proof. vm_compute. split; reflexivity. Qed.

Lemma C7_witness :
  let r := run (keyed_service "k") literal_template
             (sample_inputs "k" "Buffer (all)" 6 true None)
             sample_session tt in
  stored_messages sample_session <> []
  /\ stored_messages (session_after r) = []
  /\ existsb is_download_button (events r) = false.
Proof.
  assert (Hne : [HumanMessage "Hello"; AIMessage "Hi there"] <> [])
    by discriminate.
  pose proof (C7_clear_chat_empties unit (keyed_service "k") literal_template
                (sample_inputs "k" "Buffer (all)" 6 true None)
                sample_session tt
                {| cls := ConversationBufferMemory;
                   chat_memory := [HumanMessage "Hello";
                                   AIMessage "Hi there"] |}
                eq_refl Hne eq_refl)
    as (_ & Hrun & Hbutton & _).
  split; [exact Hne|]. split; [exact Hrun | exact Hbutton].
Defined.

Lemma C8_witness :
  stored_messages
    (session_after
       (run (keyed_service "k") literal_template
          (sample_inputs "k" "Buffer (all)" 6 false (Some "How are you?"))
          sample_session tt))
  = [HumanMessage "Hello"; AIMessage "Hi there";
     HumanMessage "How are you?"; AIMessage "Hi there"].
Proof.
  exact (proj1 (C8_reveal_is_presentation unit (keyed_service "k")
                  literal_template
                  (sample_inputs "k" "Buffer (all)" 6 false
                     (Some "How are you?"))
                  sample_session tt tt
                  (fun _ _ => "You are a friendly, efficient assistant.")
                  "How are you?" "Hi there"
                  {| cls := ConversationBufferMemory;
                     chat_memory := [HumanMessage "Hello";
                                     AIMessage "Hi there"] |}
                  eq_refl eq_refl eq_refl eq_refl eq_refl eq_refl eq_refl
                  eq_refl)).
Defined.

(** The key, the model and the prompt have changed since the summary memory
    was constructed: the memory object is kept, and the summary update of
    the next turn is still sent with the key it was constructed with, which
    this service rejects. *)
Lemma C9_witness :
  let i := other_inputs "Summary (long chats)" (Some "How are you?") in
  let r := run (keyed_service "k2") literal_template i
             sample_summary_session tt in
  session_after (initialize_memory i (window_k_of i) sample_summary_session tt)
  = sample_summary_session
  /\ _mem_config (session_after r) = _mem_config sample_summary_session
  /\ In (llm_invoke
           (summarize {| llm_model_name := "gemma2-9b-it";
                         llm_temperature := 0%Q; llm_max_tokens := None;
                         llm_api_key := "k" |}
              "The human greets the AI."
              [HumanMessage "How are you?"; AIMessage "Hi there"])
           (Failure (APIError "401 invalid api key")))
        (events r).
Proof.
  pose proof (C9_key_ignores_other_inputs unit (keyed_service "k2")
                literal_template
                (sample_inputs "k" "Summary (long chats)" 6 false None)
                (other_inputs "Summary (long chats)" (Some "How are you?"))
                sample_summary_session tt
                {| cls := ConversationSummaryMemory
                            {| llm_model_name := "gemma2-9b-it";
                               llm_temperature := 0%Q;
                               llm_max_tokens := None;
                               llm_api_key := "k" |}
                            "The human greets the AI.";
                   chat_memory := [HumanMessage "Hello";
                                   AIMessage "Hi there"] |}
                eq_refl eq_refl eq_refl eq_refl eq_refl)
    as (Hinit & _ & Hkey & _ & _ & _).
  split; [exact Hinit|]. split; [exact Hkey|].
  vm_compute. tauto.
Defined.

Lemma C10_witness :
  let r := run (keyed_service "k") literal_template
             (sample_inputs "" "Buffer (all)" 6 true None)
             empty_session tt in
  result r = Abort Stop /\ session_after r = empty_session.
Proof.
  exact (proj2 (C10_clear_without_memory unit (keyed_service "k")
                  literal_template
                  (sample_inputs "" "Buffer (all)" 6 true None)
                  empty_session tt eq_refl eq_refl) eq_refl).
Defined.

(** ** The further properties on sample runs *)

Lemma sample_session_reachable :
  reachable (keyed_service "k") literal_template sample_session.
Proof.
  change sample_session
    with (session_after
            (run (keyed_service "k") literal_template
               (sample_inputs "k" "Buffer (all)" 6 false (Some "Hello"))
               empty_session tt)).
  apply reachable_run, reachable_empty.
Qed.

Lemma sample_summary_session_reachable :
  reachable summarizing_service literal_template sample_summary_session.
Proof.
  change sample_summary_session
    with (session_after
            (run summarizing_service literal_template
               (sample_inputs "k" "Summary (long chats)" 6 false (Some "Hello"))
               empty_session tt)).
  apply reachable_run, reachable_empty.
Qed.

Lemma sample_window_session_reachable :
  reachable (keyed_service "k") literal_template sample_window_session.
Proof.
  pose (turn := sample_inputs "k" "Window (last N)" 2 false (Some "Hello")).
  pose (g := keyed_service "k").
  change sample_window_session
    with (session_after
            (run g literal_template turn
               (session_after
                  (run g literal_template turn
                     (session_after
                        (run g literal_template turn empty_session tt))
                     tt))
               tt)).
  repeat apply reachable_run. apply reachable_empty.
Qed.

Lemma sample_short_window_session_reachable :
  reachable (keyed_service "k") literal_template sample_short_window_session.
Proof.
  change sample_short_window_session
    with (session_after
            (run (keyed_service "k") literal_template
               (sample_inputs "k" "Window (last N)" 6 false (Some "Hello"))
               empty_session tt)).
  apply reachable_run, reachable_empty.
Qed.

Lemma X2_witness :
  events (run (keyed_service "k") literal_template
            (sample_inputs "k" "Buffer (all)" 6 false None) sample_session tt)
  = [st_chat_message "user" "Hello"; st_chat_message "assistant" "Hi there";
     st_download_button ("HUMAN: Hello" ++ blank_line ++ "AI: Hi there")].
Proof.
  assert (Ht : literal_template "You are a friendly, efficient assistant."
               <> None) by discriminate.
  exact (proj2 (proj1 (proj2 (proj2 (proj2
           (X2_idle_rerun_redraws_history unit (keyed_service "k")
              literal_template
              (sample_inputs "k" "Buffer (all)" 6 false None) sample_session tt
              sample_session_reachable eq_refl eq_refl eq_refl)))) Ht)).
Defined.

Lemma X5_witness :
  requests (events (run (keyed_service "k") literal_template
                      (sample_inputs "k" "Window (last N)" 6 false None)
                      sample_session tt)) = [].
Proof.
  exact (proj1 (X5_no_input_no_request unit (keyed_service "k")
                  literal_template
                  (sample_inputs "k" "Window (last N)" 6 false None)
                  sample_session tt (or_intror eq_refl))).
Defined.

Lemma X6_witness :
  (length (requests
             (events (run (keyed_service "k") literal_template
                        (sample_inputs "k" "Buffer (all)" 6 false
                           (Some "How are you?"))
                        sample_session tt))) <= 1)%nat.
Proof.
  refine (proj2 (X6_requests_per_run unit (keyed_service "k") literal_template
                   (sample_inputs "k" "Buffer (all)" 6 false
                      (Some "How are you?"))
                   sample_session tt) sample_session_reachable _).
  discriminate.
Defined.

Lemma X7_witness :
  let s' := session_after
              (script (keyed_service "k") literal_template
                 (sample_inputs "k" "Summary (long chats)" 6 true None)
                 sample_summary_session tt) in
  stored_messages s' = []
  /\ _mem_config s' = _mem_config sample_summary_session
  /\ option_map load_memory_variables (memory s') = Some [SystemMessage ""].
Proof.
  pose proof (X7_clear_resets_memory unit (keyed_service "k") literal_template
                (sample_inputs "k" "Summary (long chats)" 6 true None)
                sample_summary_session tt
                {| cls := ConversationSummaryMemory
                            {| llm_model_name := "gemma2-9b-it";
                               llm_temperature := 0%Q;
                               llm_max_tokens := None;
                               llm_api_key := "k" |}
                            "The human greets the AI.";
                   chat_memory := [HumanMessage "Hello";
                                   AIMessage "Hi there"] |}
                eq_refl eq_refl)
    as (Hm & Hkey & _ & Hempty & Hload & _).
  cbv zeta in Hm, Hkey. intros s'. unfold s', stored_messages.
  rewrite Hm. cbn [option_map]. rewrite Hload.
  split; [exact Hempty|]. split; [exact Hkey | reflexivity].
Defined.

Lemma X8_witness :
  Nat.even (length (stored_messages sample_window_session)) = true.
Proof.
  exact (proj1 (proj2 (X8_stored_whole_exchanges unit (keyed_service "k")
                         literal_template sample_window_session
                         sample_window_session_reachable))).
Defined.

Lemma X9_witness :
  exists m,
    memory (session_after
              (initialize_memory
                 (sample_inputs "k" "Window (last N)" 6 false None)
                 (Some 6) sample_session tt)) = Some m.
Proof.
  exact (proj2 (X9_memory_present_after_selector unit (keyed_service "k")
                  literal_template sample_session sample_session_reachable)
           (sample_inputs "k" "Window (last N)" 6 false None) tt).
Defined.

Lemma X10_witness :
  option_map cls (memory sample_window_session)
  = Some (ConversationBufferWindowMemory 2).
Proof.
  exact (f_equal Some
           (proj1 (proj2 (proj2
              (X10_class_follows_key unit (keyed_service "k") literal_template
                 sample_window_session
                 (sample_inputs "k" "Window (last N)" 2 false None)
                 _ sample_window_session_reachable eq_refl eq_refl)))
              eq_refl)).
Defined.

Lemma X11_witness :
  prompts (events (run (keyed_service "k") literal_template
                     (sample_inputs "k" "Buffer (all)" 6 false
                        (Some "How are you?"))
                     sample_session tt))
  = [[SystemMessage "You are a friendly, efficient assistant.";
      HumanMessage "Hello"; AIMessage "Hi there";
      HumanMessage "How are you?"]].
Proof.
  exact (proj1 (X11_buffer_prompt unit (keyed_service "k") literal_template
                  (sample_inputs "k" "Buffer (all)" 6 false
                     (Some "How are you?"))
                  sample_session tt
                  (fun _ _ => "You are a friendly, efficient assistant.")
                  "How are you?" sample_session_reachable
                  eq_refl eq_refl eq_refl eq_refl eq_refl eq_refl)).
Defined.

Lemma X12_witness :
  exists m llm buffer,
    memory sample_summary_session = Some m
    /\ cls m = ConversationSummaryMemory llm buffer
    /\ prompts (events (run summarizing_service literal_template
                          (sample_inputs "k" "Summary (long chats)" 6 false
                             (Some "How are you?"))
                          sample_summary_session tt))
       = [[SystemMessage "You are a friendly, efficient assistant.";
           SystemMessage buffer; HumanMessage "How are you?"]].
Proof.
  destruct (X12_summary_turn unit summarizing_service literal_template
              (sample_inputs "k" "Summary (long chats)" 6 false
                 (Some "How are you?"))
              sample_summary_session tt
              (fun _ _ => "You are a friendly, efficient assistant.")
              "How are you?" sample_summary_session_reachable
              eq_refl eq_refl eq_refl eq_refl eq_refl eq_refl)
    as (m & llm & buffer & Hm & Hcls & Hp & _).
  exists m, llm, buffer. split; [exact Hm|]. split; [exact Hcls | exact Hp].
Defined.

Lemma X13_witness :
  prompts (events (run (keyed_service "k") literal_template
                     (sample_inputs "k" "Window (last N)" 6 false
                        (Some "How are you?"))
                     sample_short_window_session tt))
  = [[SystemMessage "You are a friendly, efficient assistant.";
      HumanMessage "Hello"; AIMessage "Hi there";
      HumanMessage "How are you?"]].
Proof.
  refine (X13_window_keeps_short_history unit (keyed_service "k")
            literal_template
            (sample_inputs "k" "Window (last N)" 6 false (Some "How are you?"))
            sample_short_window_session tt
            (fun _ _ => "You are a friendly, efficient assistant.")
            "How are you?" sample_short_window_session_reachable
            eq_refl _ eq_refl eq_refl eq_refl eq_refl eq_refl _).
  - simpl. lia.
  - simpl. lia.
Defined.

Lemma X14_witness :
  let turn := sample_inputs "k" "Buffer (all)" 6 false (Some "How are you?") in
  let first := run (keyed_service "k") literal_template turn
                 sample_session tt in
  prompts (events (run (keyed_service "k") literal_template turn
                     (session_after first) (world_after first)))
  = [[SystemMessage "You are a friendly, efficient assistant.";
      HumanMessage "Hello"; AIMessage "Hi there";
      HumanMessage "How are you?"; AIMessage "Hi there";
      HumanMessage "How are you?"]].
Proof.
  exact (X14_turns_compose unit (keyed_service "k") literal_template
           (sample_inputs "k" "Buffer (all)" 6 false (Some "How are you?"))
           (sample_inputs "k" "Buffer (all)" 6 false (Some "How are you?"))
           sample_session tt tt
           (fun _ _ => "You are a friendly, efficient assistant.")
           (fun _ _ => "You are a friendly, efficient assistant.")
           "How are you?" "How are you?" "Hi there"
           {| cls := ConversationBufferMemory;
              chat_memory := [HumanMessage "Hello"; AIMessage "Hi there"] |}
           eq_refl eq_refl eq_refl eq_refl eq_refl eq_refl eq_refl
           eq_refl eq_refl eq_refl eq_refl eq_refl eq_refl eq_refl eq_refl).
Defined.

Lemma X16_witness :
  let r := run summary_outage literal_template
             (sample_inputs "k" "Summary (long chats)" 6 false
                (Some "How are you?"))
             sample_summary_session tt in
  result r = Abort (Raise (APIError "429 rate limit"))
  /\ stored_messages (session_after r)
     = [HumanMessage "Hello"; AIMessage "Hi there";
        HumanMessage "How are you?"; AIMessage "Hi there"]
  /\ downloads (events r) = [].
Proof.
  pose proof (X16_failed_summary_update unit summary_outage literal_template
                (sample_inputs "k" "Summary (long chats)" 6 false
                   (Some "How are you?"))
                sample_summary_session tt tt tt
                (fun _ _ => "You are a friendly, efficient assistant.")
                "How are you?" "Hi there"
                {| cls := ConversationSummaryMemory
                            {| llm_model_name := "gemma2-9b-it";
                               llm_temperature := 0%Q;
                               llm_max_tokens := None;
                               llm_api_key := "k" |}
                            "The human greets the AI.";
                   chat_memory := [HumanMessage "Hello";
                                   AIMessage "Hi there"] |}
                _ _ (APIError "429 rate limit")
                eq_refl eq_refl eq_refl eq_refl eq_refl eq_refl eq_refl
                eq_refl eq_refl)
    as (Hres & Hm & _ & Hd & _).
  intros r. unfold r, stored_messages. rewrite Hm.
  split; [exact Hres|]. split; [reflexivity | exact Hd].
Defined.

Lemma X18_witness :
  let i := sample_inputs "k" "Window (last N)" 6 false None in
  widget_values i
  /\ memory_type i = "Window (last N)"
  /\ 6 = window_slider i /\ 2 <= 6 <= 20.
Proof.
  intros i.
  assert (H : widget_values i).
  { unfold widget_values, model_options, memory_options. cbn.
    repeat split; try tauto; try lia; unfold Qle; simpl; lia. }
  split; [exact H|]. exact (X18_selector_on_widget_values i H).
Defined.

Lemma X19_witness :
  exists llm,
    collect completion_client
      (events (run (keyed_service "k") literal_template
                 (other_inputs "Buffer (all)" (Some "How are you?"))
                 sample_session tt)) = [llm]
    /\ llm_model_name llm = "llama-3.3-70b-versatile"
    /\ llm_max_tokens llm = Some 1024
    /\ llm_api_key llm = "k2".
Proof.
  exact (X19_completion_uses_current_settings unit (keyed_service "k")
           literal_template
           (other_inputs "Buffer (all)" (Some "How are you?"))
           sample_session tt
           (fun _ _ => "You are a precise coding assistant.")
           "How are you?"
           {| cls := ConversationBufferMemory;
              chat_memory := [HumanMessage "Hello"; AIMessage "Hi there"] |}
           eq_refl eq_refl eq_refl eq_refl eq_refl eq_refl).
Defined.
